(** * tank.util.metrics: the metrics queue, its dispatcher and worker

    A shallow embedding of [python/tank/util/metrics.py].  Python code that
    mutates objects and may raise is written in a small state-and-exception
    monad; calls into the host (the Shotgun connection, the engine, the core
    hook) are answered by an explicit environment.

    The model is sequential: each call of [log] and [get_metrics] is one
    atomic step, which is what the [Lock] held around their bodies provides;
    the acquire/release pair itself is not represented. *)

From stdpp Require Import base option list strings gmap sets.
From Stdlib Require Import ZArith Lia.

Local Open Scope Z_scope.

(** ** Exceptions and the execution monad *)

(** The exception classes this module can meet.  [HTTPError] is a subclass
    of [URLError] in [urllib2]; [KeyboardInterrupt] and [SystemExit] derive
    from [BaseException] only. *)
Inductive exn : Type :=
  | HTTPError (code : Z)
  | URLError (reason : string)
  | IndexError
  | TypeError
  | MemoryError
  | OtherException (name : string)
  | KeyboardInterrupt
  | SystemExit.

(** [isinstance(e, Exception)] *)
Definition is_Exception (e : exn) : bool :=
  match e with
  | KeyboardInterrupt | SystemExit => false
  | _ => true
  end.

(** [isinstance(e, urllib2.HTTPError)] *)
Definition is_HTTPError (e : exn) : bool :=
  match e with
  | HTTPError _ => true
  | _ => false
  end.

(** [isinstance(e, urllib2.URLError)] *)
Definition is_URLError (e : exn) : bool :=
  match e with
  | HTTPError _ | URLError _ => true
  | _ => false
  end.

(** How a call ends: it returns a value, or an exception leaves it.  Either
    way the mutations done so far stay. *)
Inductive outcome (S A : Type) : Type :=
  | Returned (a : A) (s : S)
  | Raised (e : exn) (s : S).
Arguments Returned {S A} a s.
Arguments Raised {S A} e s.

Definition M (S A : Type) : Type := S -> outcome S A.

Module PyMonad.

Definition ret {S A} (a : A) : M S A := fun s => Returned a s.

Definition bind {S A B} (m : M S A) (k : A -> M S B) : M S B :=
  fun s =>
    match m s with
    | Returned a s' => k a s'
    | Raised e s' => Raised e s'
    end.

Definition raise {S A} (e : exn) : M S A := fun s => Raised e s.

Definition get {S} : M S S := fun s => Returned s s.

Definition modify {S} (f : S -> S) : M S unit := fun s => Returned tt (f s).

(** [try: body  except <classes>: handler] *)
Definition try_except {S A} (body : M S A) (catches : exn -> bool)
    (handler : M S A) : M S A :=
  fun s =>
    match body s with
    | Returned a s' => Returned a s'
    | Raised e s' => if catches e then handler s' else Raised e s'
    end.

(** [try: body  finally: final]: [final] runs on both exits; an exception
    of [body] goes on after it, unless [final] raises itself. *)
Definition try_finally {S A} (body : M S A) (final : M S unit) : M S A :=
  fun s =>
    match body s with
    | Returned a s' =>
        match final s' with
        | Returned _ s'' => Returned a s''
        | Raised e s'' => Raised e s''
        end
    | Raised e s' =>
        match final s' with
        | Returned _ s'' => Raised e s''
        | Raised e' s'' => Raised e' s''
        end
    end.

(** A bare [except:] catches every exception. *)
Definition any_exception (_ : exn) : bool := true.

End PyMonad.
Import PyMonad.

Declare Scope py_scope.
Delimit Scope py_scope with py.
Notation "x <- c1 ;; c2" := (bind c1 (fun x => c2))
  (at level 100, c1 at next level, right associativity) : py_scope.
Notation "c1 ;; c2" := (bind c1 (fun _ => c2))
  (at level 100, right associativity) : py_scope.
Local Open Scope py_scope.

Definition final_state {S A} (o : outcome S A) : S :=
  match o with
  | Returned _ s => s
  | Raised _ s => s
  end.

(** ** ToolkitMetric and EventMetric *)

(** The values an event property can hold. *)
Inductive pyval : Type :=
  | PyNone
  | PyBool (b : bool)
  | PyInt (z : Z)
  | PyStr (s : string).

(** The [_data] dict of an [EventMetric].  It is only ever built by
    [EventMetric.__init__], with the three keys "event_group", "event_name"
    and "event_property"; the record has one field for each. *)
Record metric_data : Type := mkData {
  event_group : string;
  event_name : string;
  event_property : gmap string pyval
}.

Record EventMetric : Type := mkEventMetric {
  _data : metric_data
}.

(** [EventMetric.add_event_property]:
    [self._data["event_property"][name] = value] *)
Definition add_event_property (name : string) (value : pyval)
    (self : EventMetric) : EventMetric :=
  {| _data :=
       {| event_group := event_group (_data self);
          event_name := event_name (_data self);
          event_property := <[name := value]> (event_property (_data self)) |} |}.

(** [EventMetric.__init__]: the property dict starts as
    [{"event_type": "event"}]; every entry of [event_properties], when it is
    a non-empty dict, is then stored with [add_event_property]. *)
Definition EventMetric_init (event_group event_name : string)
    (event_properties : option (gmap string pyval)) : EventMetric :=
  let self :=
    {| _data := {| event_group := event_group;
                   event_name := event_name;
                   event_property := {["event_type" := PyStr "event"]} |} |} in
  match event_properties with
  | None => self
  | Some props =>
      map_fold (fun key value acc => add_event_property key value acc) self props
  end.

(** [ToolkitMetric.data] *)
Definition data (self : EventMetric) : metric_data := _data self.

(** [EventMetric.__repr__]:
    ["%s:%s" % (self._data["event_group"], self._data["event_name"])] *)
Definition repr (self : EventMetric) : string :=
  event_group (_data self) +:+ ":" +:+ event_name (_data self).

(** ** MetricsQueueSingleton *)

(** The one queue of the process: the deque of pending metrics and the
    class-level set of identifiers already logged. *)
Record MetricsQueueSingleton : Type := mkQueue {
  _queue : list EventMetric;
  __logged_metrics : gset string
}.

(** [MetricsQueueSingleton.__new__] on first use. *)
Definition new_queue : MetricsQueueSingleton :=
  {| _queue := []; __logged_metrics := ∅ |}.

(** [self._queue.append(metric)] *)
Definition deque_append (metric : EventMetric) : M MetricsQueueSingleton unit :=
  modify (fun q => {| _queue := _queue q ++ [metric];
                      __logged_metrics := __logged_metrics q |}).

(** [self.__logged_metrics.add(metric_identifier)] *)
Definition set_add (metric_identifier : string) : M MetricsQueueSingleton unit :=
  modify (fun q => {| _queue := _queue q;
                      __logged_metrics := {[metric_identifier]} ∪ __logged_metrics q |}).

(** [self._queue.popleft()]: raises [IndexError] on an empty deque. *)
Definition deque_popleft : M MetricsQueueSingleton EventMetric :=
  fun q =>
    match _queue q with
    | [] => Raised IndexError q
    | m :: rest =>
        Returned m {| _queue := rest; __logged_metrics := __logged_metrics q |}
    end.

Section Log.

(** The two container calls of the guarded block of [log].  The section
    leaves them arbitrary, so that what is proved of [log_with] holds
    whatever they do, a fault included. *)
Variable append_call : EventMetric -> M MetricsQueueSingleton unit.
Variable add_call : string -> M MetricsQueueSingleton unit.

(** [MetricsQueueSingleton.log] *)
Definition log_with (metric : EventMetric) (log_once : bool)
    : M MetricsQueueSingleton unit :=
  let metric_identifier := repr metric in
  (self <- get ;;
   if log_once && bool_decide (metric_identifier ∈ __logged_metrics self)
   then ret tt
   else
     try_except
       (append_call metric ;;
        add_call metric_identifier)
       any_exception
       (ret tt)).

End Log.

(** [MetricsQueueSingleton.log] with the containers of the code. *)
Definition log : EventMetric -> bool -> M MetricsQueueSingleton unit :=
  log_with deque_append set_add.

(** [[self._queue.popleft() for i in range(0, count)]] *)
Fixpoint popleft_times (count : nat) : M MetricsQueueSingleton (list EventMetric) :=
  match count with
  | O => ret []
  | S n =>
      (m <- deque_popleft ;;
       ms <- popleft_times n ;;
       ret (m :: ms))
  end.

(** [range(0, count)]: [count] steps, none when [count <= 0]; [None] is
    not an integer. *)
Definition py_range (count : option Z) : M MetricsQueueSingleton nat :=
  match count with
  | Some c => ret (Z.to_nat c)
  | None => raise TypeError
  end.

(** [not count], for [count] being [None] or an int. *)
Definition py_not (count : option Z) : bool :=
  match count with
  | None => true
  | Some c => c =? 0
  end.

(** [count > num_pending], for [count] being [None] or an int ([None] is
    smaller than every int in Python 2). *)
Definition py_gt (count : option Z) (num_pending : Z) : bool :=
  match count with
  | None => false
  | Some c => num_pending <? c
  end.

(** [MetricsQueueSingleton.get_metrics] *)
Definition get_metrics (count : option Z)
    : M MetricsQueueSingleton (list EventMetric) :=
  try_except
    (self <- get ;;
     let num_pending := Z.of_nat (length (_queue self)) in
     if negb (num_pending =? 0) then
       let count :=
         if py_not count || py_gt count num_pending
         then Some num_pending else count in
       n <- py_range count ;;
       popleft_times n
     else ret [])
    any_exception
    (ret []).

(** A producer that calls [log] once per entry, in order. *)
Fixpoint log_all (calls : list (EventMetric * bool)) : M MetricsQueueSingleton unit :=
  match calls with
  | [] => ret tt
  | (metric, log_once) :: rest => (log metric log_once ;; log_all rest)
  end.

(** How many metrics [get_metrics count] pops when [num_pending] wait. *)
Definition drain_size (count : option Z) (num_pending : nat) : nat :=
  match count with
  | None => num_pending
  | Some c =>
      if c =? 0 then num_pending
      else if Z.of_nat num_pending <? c then num_pending
      else Z.to_nat c
  end.

(** ** The host: Shotgun connection, engine, transport, core hook *)

(** What a call into the host answers: a value, or an exception. *)
Inductive answer (A : Type) : Type :=
  | Ok (a : A)
  | Fault (e : exn).
Arguments Ok {A} a.
Arguments Fault {A} e.

Definition call {S A} (r : answer A) : M S A :=
  match r with
  | Ok a => ret a
  | Fault e => raise e
  end.

(** A Shotgun connection, as far as this module reads it.  [server_caps] is
    [None] when the connection has no such attribute, and [Some None] when
    its [version] is [None]. *)
Record Shotgun : Type := mkShotgun {
  server_caps : option (option (list Z));
  config_proxy_handler : bool;
  base_url : string;
  get_session_token : answer string
}.

(** The payload of one request: [{"auth_args": {"session_token": ...},
    "metrics": [...]}]. *)
Record payload : Type := mkPayload {
  auth_args_session_token : string;
  metrics : list metric_data
}.

(** What the host does during one pass of the worker loop. *)
Record host : Type := mkHost {
  tank_shotgun : Shotgun;                    (* [engine.tank.shotgun] *)
  json_dumps : payload -> answer string;     (* [json.dumps] *)
  urlopen : answer unit;                     (* [urllib2.urlopen(request)] *)
  execute_core_hook : answer unit;           (* [engine.tank.execute_core_hook] *)
  halt_during_wait : bool                    (* [halt()] is called while waiting *)
}.

(** Python 2 ordering of two tuples of ints: the first differing position
    decides, a proper prefix is smaller. *)
Fixpoint tuple_compare (a b : list Z) : comparison :=
  match a, b with
  | [], [] => Eq
  | [], _ :: _ => Lt
  | _ :: _, [] => Gt
  | x :: a', y :: b' =>
      match x ?= y with
      | Eq => tuple_compare a' b'
      | c => c
      end
  end.

(** [a >= b] on tuples *)
Definition tuple_ge (a b : list Z) : bool :=
  match tuple_compare a b with
  | Lt => false
  | _ => true
  end.

(** ** MetricsDispatchWorkerThread *)

Definition API_ENDPOINT : string := "api3/track_metrics/".
Definition DISPATCH_INTERVAL : Z := 5.
Definition DISPATCH_BATCH_SIZE : Z := 10.

(** A worker thread object: whether [start()] was called on it, and its
    [_halt_event]. *)
Record MetricsDispatchWorkerThread : Type := mkWorker {
  started : bool;
  _halt_event : bool
}.

(** [MetricsDispatchWorkerThread.__init__] *)
Definition new_worker : MetricsDispatchWorkerThread :=
  {| started := false; _halt_event := false |}.

(** [halt]: [self._halt_event.set()] *)
Definition halt (self : MetricsDispatchWorkerThread) : MetricsDispatchWorkerThread :=
  {| started := started self; _halt_event := true |}.

(** A thread on which [start()] was called and [halt()] was not. *)
Definition live_worker : MetricsDispatchWorkerThread :=
  {| started := true; _halt_event := false |}.

(** What a running worker does that others can see, in order. *)
Inductive io : Type :=
  | GetMetrics (count : Z) (returned : list EventMetric)
  | InstallOpener
  | UrlOpen (url : string) (payload_json : string)
  | CoreHook (hook_name : string) (metrics : list metric_data)
  | Wait (timeout : Z).

(** What [run] works on: the shared queue, the worker itself, and the calls
    it has made so far. *)
Record world : Type := mkWorld {
  metrics_queue : MetricsQueueSingleton;
  self_worker : MetricsDispatchWorkerThread;
  trace : list io
}.

Definition emit (e : io) : M world unit :=
  modify (fun w => {| metrics_queue := metrics_queue w;
                      self_worker := self_worker w;
                      trace := trace w ++ [e] |}).

(** A call on [MetricsQueueSingleton()] made from the worker. *)
Definition on_queue {A} (m : M MetricsQueueSingleton A) : M world A :=
  fun w =>
    match m (metrics_queue w) with
    | Returned a q =>
        Returned a {| metrics_queue := q; self_worker := self_worker w;
                      trace := trace w |}
    | Raised e q =>
        Raised e {| metrics_queue := q; self_worker := self_worker w;
                    trace := trace w |}
    end.

(** [self._halt_event.wait(timeout)]: returns when the time is over or when
    the event is set; another thread may set it meanwhile. *)
Definition halt_event_wait (h : host) (timeout : Z) : M world unit :=
  (emit (Wait timeout) ;;
   modify (fun w =>
     {| metrics_queue := metrics_queue w;
        self_worker :=
          if halt_during_wait h then halt (self_worker w) else self_worker w;
        trace := trace w |})).

Section Worker.

(** [constants.TANK_LOG_METRICS_HOOK_NAME]; the module [constants] is not
    part of this file. *)
Variable TANK_LOG_METRICS_HOOK_NAME : string.

(** [MetricsDispatchWorkerThread._dispatch] *)
Definition _dispatch (h : host) (metrics : list EventMetric) : M world unit :=
  let sg_connection := tank_shotgun h in
  ((if config_proxy_handler sg_connection then emit InstallOpener else ret tt) ;;
   let url := base_url sg_connection +:+ "/" +:+ API_ENDPOINT in
   session_token <- call (get_session_token sg_connection) ;;
   let payload := {| auth_args_session_token := session_token;
                     metrics := map data metrics |} in
   payload_json <- call (json_dumps h payload) ;;
   try_except
     (emit (UrlOpen url payload_json) ;;
      call (urlopen h))
     is_HTTPError
     (ret tt) ;;
   emit (CoreHook TANK_LOG_METRICS_HOOK_NAME (map data metrics)) ;;
   call (execute_core_hook h)).

(** The probe at the top of [run]. *)
Definition metrics_ok (sg_connection : Shotgun) : bool :=
  match server_caps sg_connection with
  | None => false
  | Some None => false
  | Some (Some []) => false
  | Some (Some version) => tuple_ge version [7; 4; 0]
  end.

(** One pass of the loop of [run]: the [try] / [except Exception] /
    [finally] statement. *)
Definition run_pass (h : host) : M world unit :=
  try_finally
    (try_except
       (metrics <- on_queue (get_metrics (Some DISPATCH_BATCH_SIZE)) ;;
        emit (GetMetrics DISPATCH_BATCH_SIZE metrics) ;;
        match metrics with
        | [] => ret tt
        | _ :: _ => _dispatch h metrics
        end)
       is_Exception
       (ret tt))
    (halt_event_wait h DISPATCH_INTERVAL).

(** [while not self._halt_event.isSet(): ...], one entry of [script] per
    pass.  [None]: the script is used up and the loop still goes on. *)
Fixpoint run_loop (script : list host) (w : world)
    : option (outcome world unit) :=
  if _halt_event (self_worker w) then Some (Returned tt w)
  else
    match script with
    | [] => None
    | h :: rest =>
        match run_pass h w with
        | Returned _ w' => run_loop rest w'
        | Raised e w' => Some (Raised e w')
        end
    end.

(** [MetricsDispatchWorkerThread.run]; [engine_shotgun] is
    [self._engine.shotgun]. *)
Definition run (engine_shotgun : Shotgun) (script : list host) (w : world)
    : option (outcome world unit) :=
  let sg_connection := engine_shotgun in
  if negb (metrics_ok sg_connection) then Some (Returned tt w)
  else run_loop script w.

End Worker.

(** A version [major.minor.patch] is below 7.4.0. *)
Definition below_minimum (major minor patch : Z) : Prop :=
  major < 7 \/ (major = 7 /\ (minor < 4 \/ (minor = 4 /\ patch < 0))).

(** ** MetricsDispatcher *)

(** The dispatcher object; [_workers] holds references into the threads of
    the process. *)
Record MetricsDispatcher : Type := mkDispatcher {
  _num_workers : Z;
  _workers : list nat;
  _dispatching : bool
}.

(** The threads created so far, by reference, and the dispatcher. *)
Record process : Type := mkProcess {
  threads : list MetricsDispatchWorkerThread;
  dispatcher : MetricsDispatcher
}.

(** [MetricsDispatcher.__init__] *)
Definition MetricsDispatcher_init (num_workers : Z) : MetricsDispatcher :=
  {| _num_workers := num_workers; _workers := []; _dispatching := false |}.

Definition new_process (num_workers : Z) : process :=
  {| threads := []; dispatcher := MetricsDispatcher_init num_workers |}.

(** [MetricsDispatchWorkerThread(self._engine)]: a new thread object; gives
    its reference. *)
Definition create_worker : M process nat :=
  fun p =>
    Returned (length (threads p))
      {| threads := threads p ++ [new_worker]; dispatcher := dispatcher p |}.

(** [worker.start()]: [Thread.start] raises [RuntimeError] on a thread
    started before. *)
Definition thread_start (worker : nat) : M process unit :=
  fun p =>
    match threads p !! worker with
    | Some t =>
        if started t then Raised (OtherException "RuntimeError") p
        else Returned tt
          {| threads := <[worker := {| started := true;
                                       _halt_event := _halt_event t |}]> (threads p);
             dispatcher := dispatcher p |}
    | None => Raised (OtherException "RuntimeError") p
    end.

(** [worker.halt()] *)
Definition thread_halt (worker : nat) : M process unit :=
  modify (fun p => {| threads := alter halt worker (threads p);
                      dispatcher := dispatcher p |}).

(** [self._workers.append(worker)] *)
Definition workers_append (worker : nat) : M process unit :=
  modify (fun p =>
    {| threads := threads p;
       dispatcher := {| _num_workers := _num_workers (dispatcher p);
                        _workers := _workers (dispatcher p) ++ [worker];
                        _dispatching := _dispatching (dispatcher p) |} |}).

(** The body of [for i in range(self._num_workers)], [n] times. *)
Fixpoint start_workers (n : nat) : M process unit :=
  match n with
  | O => ret tt
  | S n' =>
      (worker <- create_worker ;;
       thread_start worker ;;
       workers_append worker ;;
       start_workers n')
  end.

Definition set_dispatching (b : bool) : M process unit :=
  modify (fun p =>
    {| threads := threads p;
       dispatcher := {| _num_workers := _num_workers (dispatcher p);
                        _workers := _workers (dispatcher p);
                        _dispatching := b |} |}).

(** [MetricsDispatcher.start]; [authenticated_user] is what
    [get_authenticated_user()] gives, [None] without a user. *)
Definition start (authenticated_user : option string) : M process unit :=
  (p <- get ;;
   if _dispatching (dispatcher p) then ret tt
   else
     match authenticated_user with
     | None => ret tt
     | Some _ =>
         start_workers (Z.to_nat (_num_workers (dispatcher p))) ;;
         set_dispatching true
     end).

(** [for worker in self.workers: worker.halt()] *)
Fixpoint halt_all (workers : list nat) : M process unit :=
  match workers with
  | [] => ret tt
  | worker :: rest => (thread_halt worker ;; halt_all rest)
  end.

(** [MetricsDispatcher.stop] *)
Definition stop : M process unit :=
  (p <- get ;;
   halt_all (_workers (dispatcher p)) ;;
   modify (fun p =>
     {| threads := threads p;
        dispatcher := {| _num_workers := _num_workers (dispatcher p);
                         _workers := [];
                         _dispatching := false |} |})).

(** [MetricsDispatcher.dispatching] and [MetricsDispatcher.workers] *)
Definition dispatching (p : process) : bool := _dispatching (dispatcher p).
Definition workers (p : process) : list nat := _workers (dispatcher p).

(** A worker runs from [start()] until its halt event is set. *)
Definition running (p : process) (worker : nat) : Prop :=
  exists t, threads p !! worker = Some t /\ started t = true /\ _halt_event t = false.

(** The calls made on a dispatcher. *)
Inductive dispatcher_call : Type :=
  | CallStart (authenticated_user : option string)
  | CallStop.

Definition do_call (c : dispatcher_call) (p : process) : process :=
  match c with
  | CallStart user => final_state (start user p)
  | CallStop => final_state (stop p)
  end.

(** The states a dispatcher built for [num_workers] workers can be in. *)
Inductive reachable (num_workers : Z) : process -> Prop :=
  | reachable_new : reachable num_workers (new_process num_workers)
  | reachable_call c p :
      reachable num_workers p -> reachable num_workers (do_call c p).

(** What holds of a dispatcher after any calls: the worker count is the
    configured one; with the flag down no worker is listed; with the flag up
    the listed workers are the configured number of live threads. *)
Definition dispatcher_inv (num_workers : Z) (p : process) : Prop :=
  _num_workers (dispatcher p) = num_workers /\
  (dispatching p = false -> workers p = []) /\
  (dispatching p = true ->
     length (workers p) = Z.to_nat num_workers /\
     Forall (running p) (workers p)).

(** ** Sample values *)

Module Sample.

Definition first_use : EventMetric := EventMetric_init "App" "First use" None.
Definition launched : EventMetric :=
  EventMetric_init "App" "Launched" (Some {["engine" := PyStr "tk-maya"]}).
Definition published : EventMetric := EventMetric_init "Publish" "Published" None.

(** Two metrics that differ in group and in name. *)
Definition colon_in_group : EventMetric := EventMetric_init "a:b" "c" None.
Definition colon_in_name : EventMetric := EventMetric_init "a" "b:c" None.

(** A queue with two pending metrics. *)
Definition two_pending : MetricsQueueSingleton :=
  {| _queue := [first_use; launched];
     __logged_metrics := {[repr first_use; repr launched]} |}.

(** A site recent enough for metrics, and one pass of the loop during
    which the connection to it is refused. *)
Definition site : Shotgun :=
  {| server_caps := Some (Some [7; 4; 0]);
     config_proxy_handler := false;
     base_url := "https://studio.shotgunstudio.com";
     get_session_token := Ok "token" |}.

Definition refused : host :=
  {| tank_shotgun := site;
     json_dumps := fun _ => Ok "{...}";
     urlopen := Fault (URLError "Connection refused");
     execute_core_hook := Ok tt;
     halt_during_wait := false |}.

Definition worker_world : world :=
  {| metrics_queue := two_pending;
     self_worker := {| started := true; _halt_event := false |};
     trace := [] |}.

(** A site that is too old for metrics. *)
Definition old_site : Shotgun :=
  {| server_caps := Some (Some [7; 3; 9]);
     config_proxy_handler := false;
     base_url := "https://studio.shotgunstudio.com";
     get_session_token := Ok "token" |}.

Definition hook_name : string := "log_metrics".

(** A pass during which the request is accepted and [halt()] is called. *)
Definition accepted : host :=
  {| tank_shotgun := site;
     json_dumps := fun _ => Ok "{...}";
     urlopen := Ok tt;
     execute_core_hook := Ok tt;
     halt_during_wait := true |}.

(** A pass during which no session token can be had. *)
Definition no_token : host :=
  {| tank_shotgun :=
       {| server_caps := Some (Some [7; 4; 0]);
          config_proxy_handler := true;
          base_url := "https://studio.shotgunstudio.com";
          get_session_token := Fault (OtherException "AuthenticationFault") |};
     json_dumps := fun _ => Ok "{...}";
     urlopen := Ok tt;
     execute_core_hook := Ok tt;
     halt_during_wait := false |}.

(** A worker with nothing to send. *)
Definition idle_world : world :=
  {| metrics_queue := new_queue;
     self_worker := {| started := true; _halt_event := false |};
     trace := [] |}.

(** A connection without [server_caps]. *)
Definition bare_connection : Shotgun :=
  {| server_caps := None;
     config_proxy_handler := false;
     base_url := "https://studio.shotgunstudio.com";
     get_session_token := Ok "token" |}.

End Sample.

(** ** The argument check of [EventMetric.__init__] *)

(** What a caller may pass as [event_properties]. *)
Inductive pyobj : Type :=
  | PyScalar (v : pyval)
  | PyDict (d : gmap string pyval)
  | PySeq (l : list pyval).

(** Truth value of an object, as [if event_properties:] takes it. *)
Definition truthy (o : pyobj) : bool :=
  match o with
  | PyScalar PyNone => false
  | PyScalar (PyBool b) => b
  | PyScalar (PyInt z) => negb (z =? 0)
  | PyScalar (PyStr s) => negb (String.eqb s "")
  | PyDict d => negb (bool_decide (d = ∅))
  | PySeq l => negb (bool_decide (l = []))
  end.

(** [type(event_properties) is dict] *)
Definition is_dict (o : pyobj) : bool :=
  match o with
  | PyDict _ => true
  | _ => false
  end.

(** [EventMetric.__init__] with [event_properties] being any object: a
    truthy one that is no dict raises [TypeError]; the properties are
    looked at only under [if event_properties:]. *)
Definition EventMetric_init_checked (event_group event_name : string)
    (event_properties : pyobj) : answer EventMetric :=
  if truthy event_properties then
    match event_properties with
    | PyDict d => Ok (EventMetric_init event_group event_name (Some d))
    | _ => Fault TypeError
    end
  else Ok (EventMetric_init event_group event_name None).

(** ** The logging functions of the module *)

(** [log_event_metric]: [MetricsQueueSingleton().log(metric_event,
    log_once=log_once)] *)
Definition log_event_metric (metric_event : EventMetric) (log_once : bool)
    : M MetricsQueueSingleton unit :=
  log metric_event log_once.

(** [log_metric], [log_user_activity_metric], [log_user_attribute_metric]:
    deprecated, their body is [pass]. *)
Definition log_metric (metric : EventMetric) (log_once : bool)
    : M MetricsQueueSingleton unit := ret tt.
Definition log_user_activity_metric (module action : string) (log_once : bool)
    : M MetricsQueueSingleton unit := ret tt.
Definition log_user_attribute_metric (attr_name attr_value : string)
    (log_once : bool) : M MetricsQueueSingleton unit := ret tt.

(** A call on the queue, by a producer or by a worker. *)
Inductive queue_call : Type :=
  | CallLog (metric : EventMetric) (log_once : bool)
  | CallGetMetrics (count : option Z).

Definition do_queue_call (c : queue_call) (q : MetricsQueueSingleton)
    : MetricsQueueSingleton :=
  match c with
  | CallLog metric log_once => final_state (log_event_metric metric log_once q)
  | CallGetMetrics count => final_state (get_metrics count q)
  end.

(** The calls of a list, one after the other. *)
Definition do_queue_calls (cs : list queue_call) (q : MetricsQueueSingleton)
    : MetricsQueueSingleton :=
  foldl (fun q c => do_queue_call c q) q cs.

(** A call that is [get_metrics] or a [log] with [log_once=True]. *)
Definition uses_log_once (c : queue_call) : Prop :=
  match c with
  | CallLog _ log_once => log_once = true
  | CallGetMetrics _ => True
  end.

(** The calls of a list on a dispatcher, one after the other. *)
Definition do_calls (cs : list dispatcher_call) (p : process) : process :=
  foldl (fun p c => do_call c p) p cs.

(** What [_dispatch] calls before the request when a proxy is set. *)
Definition proxy_setup (h : host) : list io :=
  if config_proxy_handler (tank_shotgun h) then [InstallOpener] else [].

(** A host whose faults are all instances of [Exception]. *)
Definition answers_Exception {A} (r : answer A) : Prop :=
  match r with
  | Ok _ => True
  | Fault e => is_Exception e = true
  end.

Definition ordinary_host (h : host) : Prop :=
  answers_Exception (get_session_token (tank_shotgun h)) /\
  (forall p, answers_Exception (json_dumps h p)) /\
  answers_Exception (urlopen h) /\
  answers_Exception (execute_core_hook h).

(** * Properties *)

(** ** The queue *)

Ltac unfold_py :=
  unfold try_except, try_finally, bind, ret, raise, get, modify, call,
    any_exception in *.

Lemma queue_eta q :
  {| _queue := _queue q; __logged_metrics := __logged_metrics q |} = q.
Proof. by destruct q. Qed.

(** Popping [n] metrics from a deque that holds at least [n]: the first [n]
    come out in order, the others stay. *)
Lemma popleft_times_take (n : nat) (q : MetricsQueueSingleton) :
  (n <= length (_queue q))%nat ->
  popleft_times n q =
    Returned (take n (_queue q))
      {| _queue := drop n (_queue q); __logged_metrics := __logged_metrics q |}.
Proof.
  revert q. induction n as [|n IH]; intros [pending seen] Hn; simpl in *.
  - by rewrite drop_0.
  - destruct pending as [|m rest]; simpl in Hn; [lia|].
    unfold bind, deque_popleft; simpl.
    rewrite IH by (simpl; lia). reflexivity.
Qed.

Lemma drain_size_le (count : option Z) (num_pending : nat) :
  (drain_size count num_pending <= num_pending)%nat.
Proof.
  unfold drain_size. destruct count as [c|]; [|lia].
  destruct (Z.eqb_spec c 0); [lia|].
  destruct (Z.ltb_spec (Z.of_nat num_pending) c); lia.
Qed.

(** [get_metrics] returns: it hands out the first [drain_size] pending
    metrics and keeps the rest, the set of logged identifiers untouched. *)
Lemma get_metrics_returns (count : option Z) (q : MetricsQueueSingleton) :
  get_metrics count q =
    Returned (take (drain_size count (length (_queue q))) (_queue q))
      {| _queue := drop (drain_size count (length (_queue q))) (_queue q);
         __logged_metrics := __logged_metrics q |}.
Proof.
  unfold get_metrics, try_except, bind, get.
  destruct (Z.eqb_spec (Z.of_nat (length (_queue q))) 0) as [Hz|Hz]; simpl.
  - assert (_queue q = []) as Hq by (destruct (_queue q); [done|simpl in Hz; lia]).
    destruct q as [pending seen]; simpl in *; subst pending.
    unfold ret. by rewrite take_nil, drop_nil.
  - pose proof (drain_size_le count (length (_queue q))) as Hle.
    unfold drain_size in *.
    destruct count as [c|]; simpl.
    + destruct (Z.eqb_spec c 0) as [Hc|Hc]; simpl.
      * rewrite Nat2Z.id, popleft_times_take by lia. reflexivity.
      * destruct (Z.ltb_spec (Z.of_nat (length (_queue q))) c); simpl.
        -- rewrite Nat2Z.id, popleft_times_take by lia. reflexivity.
        -- rewrite popleft_times_take by lia. reflexivity.
    + rewrite Nat2Z.id, popleft_times_take by lia. reflexivity.
Qed.

(** What [log] does when nothing faults. *)
Lemma log_suppressed (metric : EventMetric) (q : MetricsQueueSingleton) :
  repr metric ∈ __logged_metrics q ->
  log metric true q = Returned tt q.
Proof.
  intros Hin. unfold log, log_with, bind, get; simpl.
  by rewrite bool_decide_eq_true_2.
Qed.

Lemma log_appends (metric : EventMetric) (log_once : bool)
    (q : MetricsQueueSingleton) :
  log_once = false \/ repr metric ∉ __logged_metrics q ->
  log metric log_once q =
    Returned tt {| _queue := _queue q ++ [metric];
                   __logged_metrics := {[repr metric]} ∪ __logged_metrics q |}.
Proof.
  intros Hcase. unfold log, log_with, bind, get; simpl.
  assert (log_once && bool_decide (repr metric ∈ __logged_metrics q) = false)
    as -> by (destruct Hcase as [->|Hn]; [done|];
              rewrite bool_decide_eq_false_2 by done; by destruct log_once).
  reflexivity.
Qed.

(** Every call of [log] returns, and leaves the identifier of its metric in
    the set. *)
Lemma log_records (metric : EventMetric) (log_once : bool)
    (q : MetricsQueueSingleton) :
  exists q', log metric log_once q = Returned tt q' /\
             repr metric ∈ __logged_metrics q'.
Proof.
  destruct log_once.
  - destruct (decide (repr metric ∈ __logged_metrics q)) as [Hin|Hout].
    + exists q. by rewrite log_suppressed.
    + eexists. rewrite log_appends by auto. split; [done|]. simpl. set_solver.
  - eexists. rewrite log_appends by auto. split; [done|]. simpl. set_solver.
Qed.

(** Calls with identifiers that are pairwise distinct and not yet logged
    all append, in call order. *)
Lemma log_all_appends (calls : list (EventMetric * bool))
    (q : MetricsQueueSingleton) :
  NoDup (map (fun c => repr (fst c)) calls) ->
  (forall c, c ∈ calls -> repr (fst c) ∉ __logged_metrics q) ->
  exists q', log_all calls q = Returned tt q' /\
             _queue q' = _queue q ++ map fst calls.
Proof.
  revert q. induction calls as [|[metric log_once] calls IH]; intros q Hnd Hfresh.
  - exists q. simpl. by rewrite app_nil_r.
  - simpl in Hnd. apply NoDup_cons in Hnd as [Hhd Hnd].
    simpl. unfold bind.
    rewrite log_appends by (right; apply (Hfresh (metric, log_once)); left).
    destruct (IH {| _queue := _queue q ++ [metric];
                    __logged_metrics := {[repr metric]} ∪ __logged_metrics q |})
      as (q' & Hq' & Hqueue); [done| |].
    + intros c Hc. simpl. apply not_elem_of_union. split.
      * intros Heq%elem_of_singleton. apply Hhd.
        rewrite <- Heq. apply list_elem_of_fmap. by exists c.
      * apply Hfresh. by right.
    + exists q'. split; [done|]. rewrite Hqueue. simpl. by rewrite <- app_assoc.
Qed.

(** C1, as stated, fails: a count of 0 is taken for a missing count, and
    [get_metrics(0)] hands out both pending metrics, more than 0. *)
Lemma get_metrics_zero_returns_all :
  exists ms q',
    get_metrics (Some 0) Sample.two_pending = Returned ms q' /\
    length ms = 2%nat /\
    ~ (Z.of_nat (length ms) <= 0).
Proof.
  eexists _, _. rewrite get_metrics_returns. split; [reflexivity|].
  simpl. split; [reflexivity|lia].
Qed.

(** C1, amended: for every queue state and every count [n >= 1],
    [get_metrics(n)] returns at most [n] metrics and at most as many as are
    pending; for every count it returns at most the pending ones; without a
    count it returns all pending metrics and leaves the queue empty. *)
Theorem get_metrics_count_bounds (q : MetricsQueueSingleton) (n : Z) :
  0 < n ->
  (exists ms q',
     get_metrics (Some n) q = Returned ms q' /\
     Z.of_nat (length ms) <= n /\
     (length ms <= length (_queue q))%nat) /\
  (forall count, exists ms q',
     get_metrics count q = Returned ms q' /\
     (length ms <= length (_queue q))%nat) /\
  get_metrics None q =
    Returned (_queue q) {| _queue := []; __logged_metrics := __logged_metrics q |}.
Proof.
  intros Hn. split; [|split].
  - eexists _, _. rewrite get_metrics_returns. split; [reflexivity|].
    rewrite length_take. unfold drain_size.
    destruct (Z.eqb_spec n 0); [lia|].
    destruct (Z.ltb_spec (Z.of_nat (length (_queue q))) n); lia.
  - intros count. eexists _, _. rewrite get_metrics_returns.
    split; [reflexivity|]. rewrite length_take. lia.
  - rewrite get_metrics_returns. simpl.
    by rewrite firstn_all, drop_all.
Qed.

Lemma get_metrics_count_bounds_witness :
  0 < 1 /\
  ((exists ms q',
      get_metrics (Some 1) Sample.two_pending = Returned ms q' /\
      Z.of_nat (length ms) <= 1 /\
      (length ms <= length (_queue Sample.two_pending))%nat) /\
   (forall count, exists ms q',
      get_metrics count Sample.two_pending = Returned ms q' /\
      (length ms <= length (_queue Sample.two_pending))%nat) /\
   get_metrics None Sample.two_pending =
     Returned (_queue Sample.two_pending)
       {| _queue := [];
          __logged_metrics := __logged_metrics Sample.two_pending |}).
Proof.
  split; [lia | apply (get_metrics_count_bounds Sample.two_pending 1); lia].
Defined.

(** C2: for every metric and every value of [log_once], [log] returns
    without raising, whatever the append to the deque and the update of the
    set of identifiers do: a fault of either is swallowed. *)
Theorem log_never_raises
    (append_call : EventMetric -> M MetricsQueueSingleton unit)
    (add_call : string -> M MetricsQueueSingleton unit)
    (metric : EventMetric) (log_once : bool) (q : MetricsQueueSingleton) :
  exists q', log_with append_call add_call metric log_once q = Returned tt q'.
Proof.
  unfold log_with. unfold_py.
  destruct (log_once && bool_decide (repr metric ∈ __logged_metrics q));
    [by eexists|].
  destruct (append_call metric q) as [[] q1|e q1]; [|by eexists].
  destruct (add_call (repr metric) q1) as [[] q2|e q2]; by eexists.
Qed.

(** C4: for two metrics of the same group and name, two calls of [log] with
    [log_once=True] append at most one metric; after a call with
    [log_once=False] a call with [log_once=True] changes nothing; and every
    call leaves the identifier in the set, whatever its flag. *)
Theorem log_once_suppresses (e e' : EventMetric) (q : MetricsQueueSingleton) :
  event_group (_data e) = event_group (_data e') ->
  event_name (_data e) = event_name (_data e') ->
  (exists q1,
     log e true q = Returned tt q1 /\
     log e' true q1 = Returned tt q1 /\
     (length (_queue q1) <= S (length (_queue q)))%nat) /\
  (exists q1,
     log e false q = Returned tt q1 /\
     _queue q1 = _queue q ++ [e] /\
     log e' true q1 = Returned tt q1) /\
  (forall log_once, exists q1,
     log e log_once q = Returned tt q1 /\
     repr e ∈ __logged_metrics q1).
Proof.
  intros Hgroup Hname.
  assert (repr e' = repr e) as Hid by (unfold repr; by rewrite Hgroup, Hname).
  split; [|split].
  - destruct (log_records e true q) as (q1 & Hlog & Hin).
    exists q1. split; [done|]. split.
    + apply log_suppressed. by rewrite Hid.
    + destruct (decide (repr e ∈ __logged_metrics q)) as [Hseen|Hnew].
      * rewrite log_suppressed in Hlog by done. injection Hlog as <-. lia.
      * rewrite log_appends in Hlog by auto. injection Hlog as <-.
        simpl. rewrite length_app. simpl. lia.
  - eexists. rewrite log_appends by auto. split; [reflexivity|].
    split; [reflexivity|].
    apply log_suppressed. rewrite Hid. simpl. set_solver.
  - intros log_once. apply log_records.
Qed.

Lemma log_once_suppresses_witness :
  event_group (_data Sample.first_use) = event_group (_data Sample.first_use) /\
  event_name (_data Sample.first_use) = event_name (_data Sample.first_use) /\
  exists q1,
    log Sample.first_use false new_queue = Returned tt q1 /\
    _queue q1 = _queue new_queue ++ [Sample.first_use] /\
    log Sample.first_use true q1 = Returned tt q1.
Proof.
  split; [reflexivity|]. split; [reflexivity|].
  apply (log_once_suppresses Sample.first_use Sample.first_use new_queue);
    reflexivity.
Defined.

(** C5: after any sequence of [log] calls with pairwise distinct
    identifiers on a new queue, [get_metrics(count)] returns, for every
    count, a prefix of the metrics in the order of the calls, and the queue
    keeps the others in that order. *)
Theorem get_metrics_fifo (calls : list (EventMetric * bool)) (count : option Z) :
  NoDup (map (fun c => repr (fst c)) calls) ->
  exists q,
    log_all calls new_queue = Returned tt q /\
    _queue q = map fst calls /\
    get_metrics count q =
      Returned (take (drain_size count (length calls)) (map fst calls))
        {| _queue := drop (drain_size count (length calls)) (map fst calls);
           __logged_metrics := __logged_metrics q |}.
Proof.
  intros Hnd.
  destruct (log_all_appends calls new_queue Hnd) as (q & Hq & Hqueue).
  { intros c _. simpl. set_solver. }
  simpl in Hqueue. exists q. split; [done|]. split; [done|].
  rewrite get_metrics_returns, Hqueue, length_map. reflexivity.
Qed.

Lemma get_metrics_fifo_witness :
  NoDup (map (fun c => repr (fst c))
           [(Sample.first_use, true); (Sample.launched, false);
            (Sample.published, true)]) /\
  exists q,
    log_all [(Sample.first_use, true); (Sample.launched, false);
             (Sample.published, true)] new_queue = Returned tt q /\
    _queue q = [Sample.first_use; Sample.launched; Sample.published] /\
    get_metrics (Some 2) q =
      Returned [Sample.first_use; Sample.launched]
        {| _queue := [Sample.published];
           __logged_metrics := __logged_metrics q |}.
Proof.
  assert (NoDup (map (fun c => repr (fst c))
           [(Sample.first_use, true); (Sample.launched, false);
            (Sample.published, true)])) as Hnd.
  { apply (bool_decide_unpack _). vm_compute. exact I. }
  split; [exact Hnd|].
  exact (get_metrics_fifo
           [(Sample.first_use, true); (Sample.launched, false);
            (Sample.published, true)] (Some 2) Hnd).
Defined.

(** C9: for every queue state and every count [c < 0], [get_metrics(c)]
    returns the empty list and leaves the pending metrics and the set of
    identifiers as they are. *)
Theorem get_metrics_negative (q : MetricsQueueSingleton) (c : Z) :
  c < 0 -> get_metrics (Some c) q = Returned [] q.
Proof.
  intros Hc. rewrite get_metrics_returns. unfold drain_size.
  destruct (Z.eqb_spec c 0); [lia|].
  destruct (Z.ltb_spec (Z.of_nat (length (_queue q))) c); [lia|].
  replace (Z.to_nat c) with 0%nat by lia. rewrite take_0, drop_0.
  by rewrite queue_eta.
Qed.

Lemma get_metrics_negative_witness :
  -3 < 0 /\
  get_metrics (Some (-3)) Sample.two_pending = Returned [] Sample.two_pending.
Proof.
  split; [lia | apply (get_metrics_negative Sample.two_pending (-3)); lia].
Defined.

(** C10: the identifier is [group + ":" + name], which does not determine
    the pair: the metrics of group "a:b", name "c" and of group "a", name
    "b:c" differ in both and have the identifier "a:b:c"; once one is
    logged, logging the other with [log_once=True] changes nothing. *)
Theorem repr_not_injective :
  (forall e, repr e = event_group (_data e) +:+ ":" +:+ event_name (_data e)) /\
  event_group (_data Sample.colon_in_group) <> event_group (_data Sample.colon_in_name) /\
  event_name (_data Sample.colon_in_group) <> event_name (_data Sample.colon_in_name) /\
  repr Sample.colon_in_group = repr Sample.colon_in_name /\
  forall (log_once : bool) (q : MetricsQueueSingleton),
    exists q1,
      log Sample.colon_in_group log_once q = Returned tt q1 /\
      log Sample.colon_in_name true q1 = Returned tt q1.
Proof.
  split; [reflexivity|]. split; [discriminate|]. split; [discriminate|].
  split; [reflexivity|]. intros log_once q.
  destruct (log_records Sample.colon_in_group log_once q) as (q1 & Hlog & Hin).
  exists q1. split; [done|]. by apply log_suppressed.
Qed.

(** ** The worker *)

Lemma tuple_ge_below_minimum (major minor patch : Z) :
  below_minimum major minor patch ->
  tuple_ge [major; minor; patch] [7; 4; 0] = false.
Proof.
  unfold below_minimum, tuple_ge. intros Hlow. simpl.
  destruct (Z.compare_spec major 7) as [Hmaj|Hmaj|Hmaj]; [|done|lia].
  destruct (Z.compare_spec minor 4) as [Hmin|Hmin|Hmin]; [|done|lia].
  destruct (Z.compare_spec patch 0) as [Hpat|Hpat|Hpat]; [lia|done|lia].
Qed.

Lemma tuple_ge_at_least_minimum (major minor patch : Z) :
  ~ below_minimum major minor patch ->
  tuple_ge [major; minor; patch] [7; 4; 0] = true.
Proof.
  unfold below_minimum, tuple_ge. intros Hhigh. simpl.
  destruct (Z.compare_spec major 7) as [Hmaj|Hmaj|Hmaj]; [|lia|done].
  destruct (Z.compare_spec minor 4) as [Hmin|Hmin|Hmin]; [|lia|done].
  destruct (Z.compare_spec patch 0) as [Hpat|Hpat|Hpat]; [done|lia|done].
Qed.

(** [except urllib2.HTTPError] catches no other [URLError]. *)
Lemma URLError_not_HTTPError (reason : string) :
  is_URLError (URLError reason) = true /\ is_HTTPError (URLError reason) = false.
Proof. by split. Qed.

Lemma HTTPError_is_URLError (e : exn) :
  is_HTTPError e = true -> is_URLError e = true.
Proof. by destruct e. Qed.

Section WorkerFacts.

Variable hook_name : string.

(** The wait at the end of a pass is always reached: whatever the pass
    did, the last call of the worker is the wait. *)
Lemma run_pass_ends_waiting (h : host) (w : world) :
  last (trace (final_state (run_pass hook_name h w))) = Some (Wait DISPATCH_INTERVAL).
Proof.
  unfold run_pass, try_finally.
  destruct (try_except _ _ _ w) as [[] w'|e w']; simpl; apply last_snoc.
Qed.

(** A pass raises only what [except Exception] lets through. *)
Lemma run_pass_raises_only_base (h : host) (w : world) (e : exn) (w' : world) :
  run_pass hook_name h w = Raised e w' -> is_Exception e = false.
Proof.
  unfold run_pass, try_finally, try_except.
  destruct (bind _ _ w) as [ms w1|e1 w1]; simpl; [discriminate|].
  destruct (is_Exception e1) eqn:He1; simpl; [discriminate|].
  intros [= <- _]. exact He1.
Qed.

(** When the request goes through, or fails with an [HTTPError], the
    hook is called with the data of the batch, right after the request. *)
Lemma dispatch_calls_hook (h : host) (batch : list EventMetric) (w : world)
    (session_token payload_json : string) :
  config_proxy_handler (tank_shotgun h) = false ->
  get_session_token (tank_shotgun h) = Ok session_token ->
  json_dumps h {| auth_args_session_token := session_token;
                  metrics := map data batch |} = Ok payload_json ->
  urlopen h = Ok tt \/ (exists code, urlopen h = Fault (HTTPError code)) ->
  trace (final_state (_dispatch hook_name h batch w)) =
    trace w ++
      [UrlOpen (base_url (tank_shotgun h) +:+ "/" +:+ API_ENDPOINT) payload_json;
       CoreHook hook_name (map data batch)].
Proof.
  intros Hproxy Htoken Hjson Hsend.
  unfold _dispatch. rewrite Hproxy, Htoken. unfold bind at 1 2. simpl.
  unfold bind at 1. simpl. rewrite Hjson. unfold bind at 1. simpl.
  unfold bind at 1, try_except, bind at 1, emit, modify. simpl.
  destruct Hsend as [->|[code ->]]; simpl;
    unfold bind, emit, modify; simpl;
    destruct (execute_core_hook h) as [[]|e]; simpl;
    by rewrite <- app_assoc.
Qed.

(** When the request fails with a [URLError] that is no [HTTPError], the
    error leaves [_dispatch] right after the request: no hook call. *)
Lemma dispatch_URLError_raises (h : host) (batch : list EventMetric) (w : world)
    (session_token payload_json reason : string) :
  config_proxy_handler (tank_shotgun h) = false ->
  get_session_token (tank_shotgun h) = Ok session_token ->
  json_dumps h {| auth_args_session_token := session_token;
                  metrics := map data batch |} = Ok payload_json ->
  urlopen h = Fault (URLError reason) ->
  _dispatch hook_name h batch w =
    Raised (URLError reason)
      {| metrics_queue := metrics_queue w;
         self_worker := self_worker w;
         trace := trace w ++
           [UrlOpen (base_url (tank_shotgun h) +:+ "/" +:+ API_ENDPOINT)
              payload_json] |}.
Proof.
  intros Hproxy Htoken Hjson Hsend.
  unfold _dispatch. rewrite Hproxy, Htoken. unfold bind at 1 2. simpl.
  unfold bind at 1. simpl. rewrite Hjson. unfold bind at 1. simpl.
  unfold bind at 1, try_except, bind at 1, emit, modify. simpl.
  by rewrite Hsend.
Qed.

(** A worker that was halted leaves its loop at the next test. *)
Lemma run_loop_halted (script : list host) (w : world) :
  _halt_event (self_worker w) = true ->
  run_loop hook_name script w = Some (Returned tt w).
Proof. intros Hhalt. destruct script; simpl; by rewrite Hhalt. Qed.

End WorkerFacts.

(** C3, at the failing input: two metrics are pending and the connection
    is refused, so that [urlopen] raises [URLError].  The pass drains the
    batch, tries the request and goes to its wait without raising, and the
    core hook is never called: [except urllib2.HTTPError] does not catch
    the error, which leaves [_dispatch] before the hook. *)
Theorem run_pass_URLError_skips_hook :
  exists w',
    run_pass Sample.hook_name Sample.refused Sample.worker_world = Returned tt w' /\
    _queue (metrics_queue w') = [] /\
    trace w' =
      [GetMetrics DISPATCH_BATCH_SIZE [Sample.first_use; Sample.launched];
       UrlOpen "https://studio.shotgunstudio.com/api3/track_metrics/" "{...}";
       Wait DISPATCH_INTERVAL] /\
    forall batch, CoreHook Sample.hook_name batch ∉ trace w'.
Proof.
  eexists. split; [vm_compute; reflexivity|]. split; [reflexivity|].
  split; [reflexivity|].
  intros batch Hin. simpl in Hin.
  repeat (apply elem_of_cons in Hin as [Hin|Hin]; [discriminate|]).
  by apply elem_of_nil in Hin.
Qed.

(** C7: when the server reports a version [major.minor.patch] below 7.4.0,
    [run] returns at once, whatever comes later: the queue, the worker and
    the list of calls made are what they were, with no request sent and no
    metric taken from the queue. *)
Theorem run_below_minimum (hook_name : string) (engine_shotgun : Shotgun)
    (major minor patch : Z) (script : list host) (w : world) :
  server_caps engine_shotgun = Some (Some [major; minor; patch]) ->
  below_minimum major minor patch ->
  run hook_name engine_shotgun script w = Some (Returned tt w).
Proof.
  intros Hcaps Hlow. unfold run, metrics_ok. rewrite Hcaps.
  by rewrite tuple_ge_below_minimum.
Qed.

Lemma run_below_minimum_witness :
  server_caps Sample.old_site = Some (Some [7; 3; 9]) /\
  below_minimum 7 3 9 /\
  run Sample.hook_name Sample.old_site [Sample.refused; Sample.refused]
      Sample.worker_world = Some (Returned tt Sample.worker_world).
Proof.
  assert (below_minimum 7 3 9) as Hlow by (unfold below_minimum; lia).
  split; [reflexivity|]. split; [exact Hlow|].
  exact (run_below_minimum Sample.hook_name Sample.old_site 7 3 9
           [Sample.refused; Sample.refused] Sample.worker_world eq_refl Hlow).
Defined.

(** ** The dispatcher *)

(** The loop of [start] creates [n] threads, starts each, and appends their
    references in creation order; it does not raise. *)
Lemma start_workers_returns (n : nat) (p : process) :
  start_workers n p =
    Returned tt
      {| threads := threads p ++ replicate n live_worker;
         dispatcher :=
           {| _num_workers := _num_workers (dispatcher p);
              _workers := _workers (dispatcher p) ++ seq (length (threads p)) n;
              _dispatching := _dispatching (dispatcher p) |} |}.
Proof.
  revert p. induction n as [|n IH]; intros [ts [num ws flag]]; simpl.
  - unfold ret. by rewrite !app_nil_r.
  - unfold bind at 1, create_worker; simpl.
    unfold bind at 1, thread_start; simpl.
    rewrite list_lookup_middle by done; simpl.
    unfold bind at 1, workers_append, modify; simpl.
    rewrite IH; simpl.
    replace (length ts) with (length ts + 0)%nat at 1 by lia.
    rewrite insert_app_r; simpl.
    rewrite length_insert, length_app; simpl.
    rewrite <- !app_assoc; simpl.
    by replace (length ts + 1)%nat with (S (length ts)) by lia.
Qed.

(** [halt()] on every listed worker returns and leaves the dispatcher
    object as it is. *)
Lemma halt_all_returns (ws : list nat) (p : process) :
  exists ts, halt_all ws p = Returned tt {| threads := ts; dispatcher := dispatcher p |}.
Proof.
  revert p. induction ws as [|worker ws IH]; intros p; simpl.
  - exists (threads p). by destruct p.
  - unfold bind, thread_halt, modify; simpl.
    destruct (IH {| threads := alter halt worker (threads p);
                    dispatcher := dispatcher p |}) as [ts Hts].
    exists ts. by rewrite Hts.
Qed.

(** [stop] returns, with an empty worker list and the flag down. *)
Lemma stop_returns (p : process) :
  exists ts,
    stop p =
      Returned tt
        {| threads := ts;
           dispatcher := {| _num_workers := _num_workers (dispatcher p);
                            _workers := [];
                            _dispatching := false |} |}.
Proof.
  unfold stop, bind at 1, get.
  destruct (halt_all_returns (_workers (dispatcher p)) p) as [ts Hts].
  exists ts. unfold bind, modify. by rewrite Hts.
Qed.

Lemma start_preserves_inv (num_workers : Z) (user : option string) (p : process) :
  dispatcher_inv num_workers p ->
  dispatcher_inv num_workers (final_state (start user p)).
Proof.
  intros Hinv. unfold start, bind at 1, get.
  destruct (_dispatching (dispatcher p)) eqn:Hflag; [exact Hinv|].
  destruct user as [user|]; [|exact Hinv].
  destruct Hinv as (Hnum & Hdown & _).
  unfold dispatcher_inv, dispatching, workers in *.
  unfold bind. rewrite start_workers_returns. unfold set_dispatching, modify.
  simpl. rewrite (Hdown Hflag), Hnum. simpl.
  split; [done|]. split; [done|]. intros _.
  split; [by rewrite length_seq|].
  apply Forall_seq. intros j Hj. exists live_worker. simpl.
  split; [|done].
  rewrite lookup_app_r by lia.
  apply lookup_replicate_2. lia.
Qed.

Lemma stop_preserves_inv (num_workers : Z) (p : process) :
  dispatcher_inv num_workers p ->
  dispatcher_inv num_workers (final_state (stop p)).
Proof.
  intros (Hnum & _ & _). destruct (stop_returns p) as [ts ->].
  by repeat split.
Qed.

Lemma reachable_inv (num_workers : Z) (p : process) :
  reachable num_workers p -> dispatcher_inv num_workers p.
Proof.
  induction 1 as [|c p Hreach IH].
  - by repeat split.
  - destruct c as [user|]; simpl.
    + by apply start_preserves_inv.
    + by apply stop_preserves_inv.
Qed.

(** C6, as stated, fails: a dispatcher built for 0 workers and started by
    an authenticated user has its flag up and no worker in its list. *)
Lemma start_zero_workers_dispatching :
  reachable 0 (do_call (CallStart (Some "user")) (new_process 0)) /\
  ~ (dispatching (do_call (CallStart (Some "user")) (new_process 0)) = true <->
     workers (do_call (CallStart (Some "user")) (new_process 0)) <> [] /\
     Forall (running (do_call (CallStart (Some "user")) (new_process 0)))
       (workers (do_call (CallStart (Some "user")) (new_process 0)))).
Proof.
  split; [apply reachable_call, reachable_new|].
  intros [Hup _]. destruct (Hup eq_refl) as [Hne _]. by apply Hne.
Qed.

(** C6, amended: in every state that a dispatcher configured for at least
    one worker reaches by calls of [start] and [stop], the flag is up if and
    only if the worker list is not empty and every listed worker was started
    and not halted. *)
Theorem dispatching_iff_workers_running (num_workers : Z) (p : process) :
  1 <= num_workers ->
  reachable num_workers p ->
  dispatching p = true <-> workers p <> [] /\ Forall (running p) (workers p).
Proof.
  intros Hpos Hreach.
  destruct (reachable_inv _ _ Hreach) as (_ & Hdown & Hup).
  split.
  - intros Hflag. destruct (Hup Hflag) as [Hlen Hrun]. split; [|done].
    intros Hnil. rewrite Hnil in Hlen. simpl in Hlen. lia.
  - intros [Hne _]. destruct (dispatching p); [done|].
    by destruct Hne; apply Hdown.
Qed.

Lemma dispatching_iff_workers_running_witness :
  1 <= 2 /\
  reachable 2 (do_call (CallStart (Some "user")) (new_process 2)) /\
  (dispatching (do_call (CallStart (Some "user")) (new_process 2)) = true <->
   workers (do_call (CallStart (Some "user")) (new_process 2)) <> [] /\
   Forall (running (do_call (CallStart (Some "user")) (new_process 2)))
     (workers (do_call (CallStart (Some "user")) (new_process 2)))).
Proof.
  assert (reachable 2 (do_call (CallStart (Some "user")) (new_process 2)))
    as Hreach by apply reachable_call, reachable_new.
  split; [lia|]. split; [exact Hreach|].
  apply (dispatching_iff_workers_running 2); [lia | exact Hreach].
Defined.

(** C8: without an authenticated user, [start] returns without raising and
    changes nothing: no thread is created, and a dispatcher that was not
    dispatching keeps an empty worker list and its flag down. *)
Theorem start_without_user (num_workers : Z) (p : process) :
  reachable num_workers p ->
  start None p = Returned tt p /\
  (dispatching p = false ->
   workers (final_state (start None p)) = [] /\
   dispatching (final_state (start None p)) = false /\
   threads (final_state (start None p)) = threads p).
Proof.
  intros Hreach.
  assert (start None p = Returned tt p) as Hstart.
  { unfold start, bind, get, ret. by destruct (_dispatching (dispatcher p)). }
  split; [done|]. rewrite Hstart. simpl. intros Hflag.
  destruct (reachable_inv _ _ Hreach) as (_ & Hdown & _). auto.
Qed.

Lemma start_without_user_witness :
  reachable 1 (do_call CallStop (do_call (CallStart (Some "user")) (new_process 1))) /\
  start None (do_call CallStop (do_call (CallStart (Some "user")) (new_process 1))) =
    Returned tt (do_call CallStop (do_call (CallStart (Some "user")) (new_process 1))).
Proof.
  assert (reachable 1
            (do_call CallStop (do_call (CallStart (Some "user")) (new_process 1))))
    as Hreach by (do 2 apply reachable_call; apply reachable_new).
  split; [exact Hreach|].
  apply (start_without_user 1 _ Hreach).
Defined.

(** * Further properties *)

(** ** EventMetric *)

Lemma EventMetric_init_data (group name : string) (props : gmap string pyval) :
  EventMetric_init group name (Some props) =
    {| _data := {| event_group := group;
                   event_name := name;
                   event_property := props ∪ {["event_type" := PyStr "event"]} |} |}.
Proof.
  unfold EventMetric_init.
  apply (map_fold_weak_ind
    (fun r m => r = {| _data := {| event_group := group; event_name := name;
                                   event_property := m ∪ {["event_type" := PyStr "event"]} |} |})).
  - by rewrite (left_id_L ∅ (∪)).
  - intros key value m r _ ->. unfold add_event_property; simpl.
    by rewrite insert_union_l.
Qed.

(** X1: a metric built from a dict of properties holds every entry of the
    dict, the caller's "event_type" included when there is one, and the
    default "event_type" of "event" otherwise; no other key. *)
Theorem EventMetric_init_lookup (group name : string)
    (props : gmap string pyval) (key : string) :
  event_property (data (EventMetric_init group name (Some props))) !! key =
    match props !! key with
    | Some value => Some value
    | None => if decide (key = "event_type") then Some (PyStr "event") else None
    end.
Proof.
  rewrite EventMetric_init_data. unfold data; simpl.
  rewrite lookup_union. destruct (props !! key) as [value|] eqn:Hkey; simpl.
  - by destruct ({["event_type" := PyStr "event"]} !! key).
  - destruct (decide (key = "event_type")) as [->|Hne].
    + by rewrite lookup_singleton_eq.
    + by rewrite lookup_singleton_ne.
Qed.

(** X2: the identifier of a metric does not depend on its properties:
    metrics of the same group and name built from different properties, and
    given further properties afterwards, are one metric for [log_once]. *)
Theorem log_once_ignores_properties (group name : string)
    (props props' : option (gmap string pyval)) (key : string) (value : pyval)
    (log_once : bool) (q : MetricsQueueSingleton) :
  exists q1,
    log (EventMetric_init group name props) log_once q = Returned tt q1 /\
    log (add_event_property key value (EventMetric_init group name props'))
        true q1 = Returned tt q1.
Proof.
  assert (forall ps, repr (EventMetric_init group name ps) = group +:+ ":" +:+ name)
    as Hrepr.
  { intros [ps|]; [by rewrite EventMetric_init_data|done]. }
  destruct (log_records (EventMetric_init group name props) log_once q)
    as (q1 & Hlog & Hin).
  exists q1. split; [done|]. apply log_suppressed.
  unfold repr in *. simpl. rewrite Hrepr in Hin.
  specialize (Hrepr props'). unfold repr in Hrepr. by rewrite Hrepr.
Qed.

(** X3: [event_properties] is rejected with [TypeError] exactly when it is
    truthy and not a dict; a falsy object that is no dict (0, "", an empty
    list) passes like [None] and gives the metric with the default property
    only. *)
Theorem EventMetric_init_checked_TypeError (group name : string)
    (event_properties : pyobj) :
  (EventMetric_init_checked group name event_properties = Fault TypeError <->
   truthy event_properties = true /\ is_dict event_properties = false) /\
  (truthy event_properties = false ->
   EventMetric_init_checked group name event_properties =
     Ok {| _data := {| event_group := group;
                       event_name := name;
                       event_property := {["event_type" := PyStr "event"]} |} |}).
Proof.
  unfold EventMetric_init_checked. split.
  - destruct (truthy event_properties) eqn:Htruth.
    + destruct event_properties; simpl; split;
        try done; try (by intros [_ ?]); by intros _.
    + split; [done | by intros [? _]].
  - by intros ->.
Qed.

Lemma EventMetric_init_checked_TypeError_witness :
  truthy (PyScalar (PyInt 0)) = false /\
  EventMetric_init_checked "App" "Launched" (PyScalar (PyInt 0)) =
    Ok {| _data := {| event_group := "App";
                      event_name := "Launched";
                      event_property := {["event_type" := PyStr "event"]} |} |}.
Proof.
  split; [reflexivity|].
  apply (EventMetric_init_checked_TypeError "App" "Launched" (PyScalar (PyInt 0))).
  reflexivity.
Defined.

(** ** The queue *)

Lemma get_metrics_splits_pending_aux (count : option Z) (q : MetricsQueueSingleton) :
  exists ms q', get_metrics count q = Returned ms q' /\ ms ++ _queue q' = _queue q.
Proof.
  eexists _, _. rewrite get_metrics_returns. split; [reflexivity|].
  simpl. by rewrite take_drop.
Qed.

(** X4: [get_metrics] never raises, for any count and any queue; what it
    returns followed by what it leaves pending is what was pending, in the
    same order, and the set of logged identifiers is not touched. *)
Theorem get_metrics_splits_pending (count : option Z) (q : MetricsQueueSingleton) :
  exists ms q',
    get_metrics count q = Returned ms q' /\
    ms ++ _queue q' = _queue q /\
    __logged_metrics q' = __logged_metrics q.
Proof.
  eexists _, _. rewrite get_metrics_returns. split; [reflexivity|].
  simpl. by rewrite take_drop.
Qed.

(** X5: a count between 1 and the number of pending metrics is honoured
    exactly: [get_metrics(c)] returns the first [c] pending metrics and
    leaves the others. *)
Theorem get_metrics_exact_count (c : Z) (q : MetricsQueueSingleton) :
  0 < c <= Z.of_nat (length (_queue q)) ->
  get_metrics (Some c) q =
    Returned (take (Z.to_nat c) (_queue q))
      {| _queue := drop (Z.to_nat c) (_queue q);
         __logged_metrics := __logged_metrics q |} /\
  Z.of_nat (length (take (Z.to_nat c) (_queue q))) = c.
Proof.
  intros Hc. rewrite get_metrics_returns. unfold drain_size.
  destruct (Z.eqb_spec c 0); [lia|].
  destruct (Z.ltb_spec (Z.of_nat (length (_queue q))) c); [lia|].
  split; [reflexivity|]. rewrite length_take. lia.
Qed.

Lemma get_metrics_exact_count_witness :
  0 < 1 <= Z.of_nat (length (_queue Sample.two_pending)) /\
  get_metrics (Some 1) Sample.two_pending =
    Returned [Sample.first_use]
      {| _queue := [Sample.launched];
         __logged_metrics := __logged_metrics Sample.two_pending |}.
Proof.
  assert (0 < 1 <= Z.of_nat (length (_queue Sample.two_pending))) as Hc
    by (simpl; lia).
  split; [exact Hc|].
  apply (get_metrics_exact_count 1 Sample.two_pending Hc).
Defined.

(** X6: a count above the number of pending metrics is cut down to it:
    [get_metrics(c)] then returns everything and leaves the queue empty,
    as a call without count does. *)
Theorem get_metrics_count_above_pending (c : Z) (q : MetricsQueueSingleton) :
  Z.of_nat (length (_queue q)) < c ->
  get_metrics (Some c) q = get_metrics None q /\
  get_metrics (Some c) q =
    Returned (_queue q) {| _queue := []; __logged_metrics := __logged_metrics q |}.
Proof.
  intros Hc. rewrite !get_metrics_returns. unfold drain_size.
  destruct (Z.eqb_spec c 0); [lia|].
  destruct (Z.ltb_spec (Z.of_nat (length (_queue q))) c); [|lia].
  split; [reflexivity|]. by rewrite firstn_all, drop_all.
Qed.

Lemma get_metrics_count_above_pending_witness :
  Z.of_nat (length (_queue Sample.two_pending)) < 10 /\
  get_metrics (Some 10) Sample.two_pending = get_metrics None Sample.two_pending.
Proof.
  assert (Z.of_nat (length (_queue Sample.two_pending)) < 10) as Hc
    by (simpl; lia).
  split; [exact Hc|].
  apply (get_metrics_count_above_pending 10 Sample.two_pending Hc).
Defined.

(** X7: two calls of [get_metrics] in a row hand out consecutive stretches
    of the queue: the first result, the second result and what is left are
    the pending metrics in their order, none lost, none twice. *)
Theorem get_metrics_twice_consecutive (count1 count2 : option Z)
    (q : MetricsQueueSingleton) :
  exists ms1 q1 ms2 q2,
    get_metrics count1 q = Returned ms1 q1 /\
    get_metrics count2 q1 = Returned ms2 q2 /\
    ms1 ++ ms2 ++ _queue q2 = _queue q.
Proof.
  destruct (get_metrics_splits_pending_aux count1 q) as (ms1 & q1 & H1 & Hq1).
  destruct (get_metrics_splits_pending_aux count2 q1) as (ms2 & q2 & H2 & Hq2).
  exists ms1, q1, ms2, q2. split; [done|]. split; [done|].
  by rewrite Hq2, Hq1.
Qed.

Lemma do_queue_call_logged_grows (c : queue_call) (q : MetricsQueueSingleton) :
  __logged_metrics q ⊆ __logged_metrics (do_queue_call c q).
Proof.
  destruct c as [metric log_once|count]; simpl; unfold log_event_metric.
  - destruct log_once.
    + destruct (decide (repr metric ∈ __logged_metrics q)).
      * by rewrite log_suppressed.
      * rewrite log_appends by auto. simpl. set_solver.
    + rewrite log_appends by auto. simpl. set_solver.
  - by rewrite get_metrics_returns.
Qed.

Lemma do_queue_calls_logged_grows (cs : list queue_call) (q : MetricsQueueSingleton) :
  __logged_metrics q ⊆ __logged_metrics (do_queue_calls cs q).
Proof.
  unfold do_queue_calls. revert q. induction cs as [|c cs IH]; intros q; simpl.
  - done.
  - etrans; [apply (do_queue_call_logged_grows c)|apply IH].
Qed.

(** X8: an identifier stays logged for good: whatever calls of [log] and
    [get_metrics] follow, also once the metric itself was handed out, a
    [log_once=True] call for that identifier changes nothing. *)
Theorem log_once_suppressed_for_good (cs : list queue_call)
    (metric : EventMetric) (q : MetricsQueueSingleton) :
  repr metric ∈ __logged_metrics q ->
  log_event_metric metric true (do_queue_calls cs q) =
    Returned tt (do_queue_calls cs q).
Proof.
  intros Hin. unfold log_event_metric. apply log_suppressed.
  by apply (do_queue_calls_logged_grows cs q).
Qed.

Lemma log_once_suppressed_for_good_witness :
  repr Sample.first_use ∈ __logged_metrics Sample.two_pending /\
  log_event_metric Sample.first_use true
    (do_queue_calls [CallGetMetrics None; CallLog Sample.published false]
       Sample.two_pending) =
  Returned tt
    (do_queue_calls [CallGetMetrics None; CallLog Sample.published false]
       Sample.two_pending).
Proof.
  assert (repr Sample.first_use ∈ __logged_metrics Sample.two_pending) as Hin.
  { unfold Sample.two_pending. simpl. set_solver. }
  split; [exact Hin|].
  apply (log_once_suppressed_for_good
           [CallGetMetrics None; CallLog Sample.published false]
           Sample.first_use Sample.two_pending Hin).
Defined.

Lemma do_queue_call_pending_distinct (c : queue_call) (q : MetricsQueueSingleton) :
  uses_log_once c ->
  NoDup (repr <$> _queue q) /\
    (forall m, m ∈ _queue q -> repr m ∈ __logged_metrics q) ->
  NoDup (repr <$> _queue (do_queue_call c q)) /\
    (forall m, m ∈ _queue (do_queue_call c q) ->
               repr m ∈ __logged_metrics (do_queue_call c q)).
Proof.
  intros Honce [Hnd Hseen].
  destruct c as [metric log_once|count]; simpl in *; unfold log_event_metric.
  - subst log_once.
    destruct (decide (repr metric ∈ __logged_metrics q)) as [Hin|Hout].
    + by rewrite log_suppressed.
    + rewrite log_appends by auto. simpl. split.
      * rewrite fmap_app. apply NoDup_app. split; [done|].
        split; [|apply NoDup_singleton].
        intros x Hx ->%list_elem_of_singleton.
        apply list_elem_of_fmap in Hx as (m & Hm & Hmq).
        apply Hout. rewrite Hm. by apply Hseen.
      * intros m [Hm | ->%list_elem_of_singleton]%elem_of_app.
        -- apply elem_of_union_r. by apply Hseen.
        -- apply elem_of_union_l. by apply elem_of_singleton.
  - rewrite get_metrics_returns. simpl. split.
    + rewrite fmap_drop. eapply sublist_NoDup; [done|apply sublist_drop].
    + intros m Hm. apply Hseen. by eapply subseteq_drop.
Qed.

(** X9: when every [log] call of a process passes [log_once=True], the
    pending metrics have pairwise distinct identifiers at all times,
    whatever calls of [get_metrics] come in between. *)
Theorem log_once_pending_distinct (cs : list queue_call) :
  Forall uses_log_once cs ->
  NoDup (repr <$> _queue (do_queue_calls cs new_queue)).
Proof.
  intros Hcs.
  enough (forall q,
    NoDup (repr <$> _queue q) /\
      (forall m, m ∈ _queue q -> repr m ∈ __logged_metrics q) ->
    NoDup (repr <$> _queue (do_queue_calls cs q)) /\
      (forall m, m ∈ _queue (do_queue_calls cs q) ->
                 repr m ∈ __logged_metrics (do_queue_calls cs q))) as Hall.
  { apply Hall. simpl. split; [constructor|]. intros m Hm. by apply elem_of_nil in Hm. }
  unfold do_queue_calls. induction Hcs as [|c cs Hc Hcs IH]; intros q Hq; simpl.
  - done.
  - apply IH. by apply do_queue_call_pending_distinct.
Qed.

Lemma log_once_pending_distinct_witness :
  Forall uses_log_once
    [CallLog Sample.first_use true; CallLog Sample.first_use true;
     CallGetMetrics (Some 1); CallLog Sample.first_use true;
     CallLog Sample.launched true] /\
  NoDup (repr <$> _queue (do_queue_calls
    [CallLog Sample.first_use true; CallLog Sample.first_use true;
     CallGetMetrics (Some 1); CallLog Sample.first_use true;
     CallLog Sample.launched true] new_queue)).
Proof.
  assert (Forall uses_log_once
    [CallLog Sample.first_use true; CallLog Sample.first_use true;
     CallGetMetrics (Some 1); CallLog Sample.first_use true;
     CallLog Sample.launched true]) as Hcs.
  { repeat constructor. }
  split; [exact Hcs|].
  apply (log_once_pending_distinct _ Hcs).
Defined.

(** X10: a [log] call with [log_once=False] always appends, so the same
    metric logged [n] times that way is pending [n] more times; with
    [log_once=True] from the second call on it would not be. *)
Theorem log_repeated_appends (metric : EventMetric) (n : nat)
    (q : MetricsQueueSingleton) :
  _queue (do_queue_calls (replicate n (CallLog metric false)) q) =
    _queue q ++ replicate n metric.
Proof.
  unfold do_queue_calls. revert q. induction n as [|n IH]; intros q; simpl.
  - by rewrite app_nil_r.
  - rewrite IH. simpl. by rewrite <- app_assoc.
Qed.

(** ** The worker *)

Section WorkerPass.

Variable hook_name : string.

Ltac run_dispatch :=
  cbv [_dispatch run_pass try_finally try_except bind ret raise call emit modify
       halt_event_wait on_queue any_exception];
  repeat case_match; simplify_eq/=.

(** [_dispatch] leaves the queue and the worker object alone, however the
    host answers. *)
Lemma dispatch_keeps_queue (h : host) (batch : list EventMetric) (w : world) :
  metrics_queue (final_state (_dispatch hook_name h batch w)) = metrics_queue w /\
  self_worker (final_state (_dispatch hook_name h batch w)) = self_worker w.
Proof. run_dispatch; done. Qed.

(** A fault that leaves [_dispatch] is one the host answered with. *)
Lemma dispatch_raises_host_fault (h : host) (batch : list EventMetric)
    (w w' : world) (e : exn) :
  _dispatch hook_name h batch w = Raised e w' ->
  get_session_token (tank_shotgun h) = Fault e \/
  (exists p, json_dumps h p = Fault e) \/
  urlopen h = Fault e \/
  execute_core_hook h = Fault e.
Proof.
  cbv [_dispatch try_except bind ret raise call emit modify].
  repeat case_match; simplify_eq/=; intros; simplify_eq; eauto 6.
Qed.

Lemma drop_drain_size_batch (pending : list EventMetric) :
  drop (drain_size (Some DISPATCH_BATCH_SIZE) (length pending)) pending =
    drop 10 pending /\
  take (drain_size (Some DISPATCH_BATCH_SIZE) (length pending)) pending =
    take 10 pending.
Proof.
  unfold drain_size, DISPATCH_BATCH_SIZE. simpl.
  destruct (Z.ltb_spec (Z.of_nat (length pending)) 10).
  - rewrite !drop_ge, !take_ge by lia. done.
  - done.
Qed.

(** The state of a pass once the batch is taken from the queue. *)
Lemma run_pass_after_drain (h : host) (w : world) :
  run_pass hook_name h w =
    try_finally
      (try_except
         (match take 10 (_queue (metrics_queue w)) with
          | [] => ret tt
          | _ :: _ => _dispatch hook_name h (take 10 (_queue (metrics_queue w)))
          end)
         is_Exception
         (ret tt))
      (halt_event_wait h DISPATCH_INTERVAL)
      {| metrics_queue :=
           {| _queue := drop 10 (_queue (metrics_queue w));
              __logged_metrics := __logged_metrics (metrics_queue w) |};
         self_worker := self_worker w;
         trace := trace w ++
           [GetMetrics DISPATCH_BATCH_SIZE (take 10 (_queue (metrics_queue w)))] |}.
Proof.
  destruct (drop_drain_size_batch (_queue (metrics_queue w))) as [Hdrop Htake].
  unfold run_pass, try_finally, try_except.
  unfold bind at 1, on_queue. rewrite get_metrics_returns, Hdrop, Htake.
  unfold bind at 1, emit, modify. simpl. reflexivity.
Qed.

Lemma run_pass_final_queue (h : host) (w : world) :
  _queue (metrics_queue (final_state (run_pass hook_name h w))) =
    drop 10 (_queue (metrics_queue w)) /\
  __logged_metrics (metrics_queue (final_state (run_pass hook_name h w))) =
    __logged_metrics (metrics_queue w).
Proof.
  rewrite run_pass_after_drain.
  set (w1 := {| metrics_queue := _; self_worker := _; trace := _ |}).
  assert (metrics_queue w1 =
            {| _queue := drop 10 (_queue (metrics_queue w));
               __logged_metrics := __logged_metrics (metrics_queue w) |}) as Hw1
    by done.
  assert (forall o : outcome world unit,
            metrics_queue (final_state o) = metrics_queue w1 ->
            metrics_queue (final_state
              (try_finally (fun _ => o) (halt_event_wait h DISPATCH_INTERVAL) w1)) =
            metrics_queue w1) as Hwait.
  { intros [[] w2|e w2] Ho; simpl in *; done. }
  assert (metrics_queue (final_state
            (try_except
               (match take 10 (_queue (metrics_queue w)) with
                | [] => ret tt
                | _ :: _ => _dispatch hook_name h (take 10 (_queue (metrics_queue w)))
                end) is_Exception (ret tt) w1)) = metrics_queue w1) as Hbody.
  { unfold try_except.
    destruct (take 10 (_queue (metrics_queue w))) as [|m batch]; [done|].
    pose proof (dispatch_keeps_queue h (m :: batch) w1) as [Hq _].
    destruct (_dispatch hook_name h (m :: batch) w1) as [[] w2|e w2];
      simpl in *; [done|]. by destruct (is_Exception e). }
  specialize (Hwait _ Hbody). unfold try_finally in *.
  rewrite Hwait, Hw1. done.
Qed.

(** X12: with nothing pending a pass asks the queue and waits: no request
    is made, the core hook is not called, and the pass returns. *)
Theorem run_pass_nothing_pending (h : host) (w : world) :
  _queue (metrics_queue w) = [] ->
  exists w',
    run_pass hook_name h w = Returned tt w' /\
    trace w' = trace w ++ [GetMetrics DISPATCH_BATCH_SIZE []; Wait DISPATCH_INTERVAL] /\
    metrics_queue w' = metrics_queue w.
Proof.
  intros Hq. rewrite run_pass_after_drain, Hq. simpl.
  eexists. split; [reflexivity|]. simpl. rewrite <- app_assoc. split; [done|].
  destruct (metrics_queue w) as [pending seen]. simpl in Hq. by subst pending.
Qed.

(** X11: a pass takes the first 10 pending metrics, or all when fewer are
    pending, and they are gone from the queue afterwards however the host
    answered: a batch that could not be sent is not put back. *)
Theorem run_pass_drops_batch (h : host) (w : world) :
  _queue (metrics_queue (final_state (run_pass hook_name h w))) =
    drop 10 (_queue (metrics_queue w)) /\
  __logged_metrics (metrics_queue (final_state (run_pass hook_name h w))) =
    __logged_metrics (metrics_queue w).
Proof. apply run_pass_final_queue. Qed.

(** The worker object after a pass: halted when [halt()] came during the
    wait, as before otherwise. *)
Lemma run_pass_final_worker (h : host) (w : world) :
  self_worker (final_state (run_pass hook_name h w)) =
    if halt_during_wait h then halt (self_worker w) else self_worker w.
Proof.
  rewrite run_pass_after_drain. unfold try_finally, try_except.
  destruct (take 10 (_queue (metrics_queue w))) as [|m batch]; [done|].
  set (w1 := {| metrics_queue := _; self_worker := _; trace := _ |}).
  pose proof (dispatch_keeps_queue h (m :: batch) w1) as [_ Hself].
  destruct (_dispatch hook_name h (m :: batch) w1) as [[] w2|e w2];
    simpl in *; [by rewrite Hself|].
  destruct (is_Exception e); simpl; by rewrite Hself.
Qed.

(** With a host whose faults are instances of [Exception], a pass returns. *)
Lemma run_pass_returns_ordinary (h : host) (w : world) :
  ordinary_host h -> exists w', run_pass hook_name h w = Returned tt w'.
Proof.
  intros (Htoken & Hjson & Hsend & Hhook).
  rewrite run_pass_after_drain. unfold try_finally, try_except.
  destruct (take 10 (_queue (metrics_queue w))) as [|m batch];
    [by eexists|].
  set (w1 := {| metrics_queue := _; self_worker := _; trace := _ |}).
  destruct (_dispatch hook_name h (m :: batch) w1) as [[] w2|e w2] eqn:Hd;
    [by eexists|].
  assert (is_Exception e = true) as ->; [|by eexists].
  apply dispatch_raises_host_fault in Hd as [He|[[pl He]|[He|He]]].
  - by rewrite He in Htoken.
  - specialize (Hjson pl). by rewrite He in Hjson.
  - by rewrite He in Hsend.
  - by rewrite He in Hhook.
Qed.

(** X13: whatever fault the host answers with, as long as it is an
    instance of [Exception] (a refused connection, a token that cannot be
    had, data that cannot be serialized, a failing hook), the pass swallows
    it and returns. *)
Theorem run_pass_swallows_faults (h : host) (w : world) :
  ordinary_host h -> exists w', run_pass hook_name h w = Returned tt w'.
Proof. apply run_pass_returns_ordinary. Qed.

(** X14: when metrics are pending, the token is there, the payload is
    serialized and the request goes through or fails with an [HTTPError],
    the pass makes one request, to [<base_url>/api3/track_metrics/], with
    the serialized payload of the token and the data of the batch in queue
    order, then calls the core hook with the same data, then waits. *)
Theorem run_pass_sends_batch (h : host) (w : world)
    (session_token payload_json : string) :
  _queue (metrics_queue w) <> [] ->
  get_session_token (tank_shotgun h) = Ok session_token ->
  json_dumps h {| auth_args_session_token := session_token;
                  metrics := map data (take 10 (_queue (metrics_queue w))) |} =
    Ok payload_json ->
  urlopen h = Ok tt \/ (exists code, urlopen h = Fault (HTTPError code)) ->
  answers_Exception (execute_core_hook h) ->
  exists w',
    run_pass hook_name h w = Returned tt w' /\
    trace w' =
      trace w ++
      [GetMetrics DISPATCH_BATCH_SIZE (take 10 (_queue (metrics_queue w)))] ++
      proxy_setup h ++
      [UrlOpen (base_url (tank_shotgun h) +:+ "/api3/track_metrics/") payload_json;
       CoreHook hook_name (map data (take 10 (_queue (metrics_queue w))));
       Wait DISPATCH_INTERVAL] /\
    (length (take 10 (_queue (metrics_queue w))) <= 10)%nat.
Proof.
  intros Hpending Htoken Hjson Hsend Hhook.
  rewrite run_pass_after_drain.
  remember (take 10 (_queue (metrics_queue w))) as batch eqn:Hbatch.
  destruct batch as [|m batch].
  { destruct (_queue (metrics_queue w)); [done|discriminate]. }
  assert (length (m :: batch) <= 10)%nat as Hlen
    by (rewrite Hbatch, length_take; lia).
  clear Hbatch. cbv beta iota. revert Hjson Hlen. generalize (m :: batch).
  intros ms Hjson Hlen.
  unfold try_finally, try_except, _dispatch, proxy_setup.
  rewrite Htoken.
  destruct (config_proxy_handler (tank_shotgun h));
    cbv [bind ret raise call emit modify halt_event_wait]; simpl;
    rewrite Hjson; simpl;
    destruct Hsend as [->|[code ->]]; simpl;
    destruct (execute_core_hook h) as [[]|e]; simpl in *;
    rewrite ?Hhook; simpl;
    (eexists; split; [reflexivity|]; split; [|exact Hlen]; simpl;
     by rewrite <- !app_assoc).
Qed.

(** X15: when the session token cannot be had, or the payload cannot be
    serialized, no request is made and the core hook is not called; the
    pass still takes the batch from the queue, waits and returns. *)
Theorem run_pass_fault_before_request (h : host) (w : world) (e : exn) :
  _queue (metrics_queue w) <> [] ->
  is_Exception e = true ->
  get_session_token (tank_shotgun h) = Fault e \/
    (exists session_token,
       get_session_token (tank_shotgun h) = Ok session_token /\
       json_dumps h {| auth_args_session_token := session_token;
                       metrics := map data (take 10 (_queue (metrics_queue w))) |} =
         Fault e) ->
  exists w',
    run_pass hook_name h w = Returned tt w' /\
    trace w' =
      trace w ++
      [GetMetrics DISPATCH_BATCH_SIZE (take 10 (_queue (metrics_queue w)))] ++
      proxy_setup h ++ [Wait DISPATCH_INTERVAL] /\
    _queue (metrics_queue w') = drop 10 (_queue (metrics_queue w)).
Proof.
  intros Hpending He Hfault.
  rewrite run_pass_after_drain.
  remember (take 10 (_queue (metrics_queue w))) as batch eqn:Hbatch.
  destruct batch as [|m batch].
  { destruct (_queue (metrics_queue w)); [done|discriminate]. }
  clear Hbatch. cbv beta iota. revert Hfault. generalize (m :: batch).
  intros ms Hfault.
  unfold try_finally, try_except, _dispatch, proxy_setup.
  destruct Hfault as [Htoken|(session_token & Htoken & Hjson)]; rewrite Htoken;
    destruct (config_proxy_handler (tank_shotgun h));
    cbv [bind ret raise call emit modify halt_event_wait]; simpl;
    rewrite ?Hjson; simpl; rewrite He; simpl;
    (eexists; split; [reflexivity|]; split; [|reflexivity]; simpl;
     by rewrite <- !app_assoc).
Qed.

(** X16: a worker whose halt event is set during the wait of a pass leaves
    its loop right after that pass, whatever would come later; [run]
    returns. *)
Theorem run_halts_after_wait (engine_shotgun : Shotgun) (h : host)
    (rest : list host) (w : world) :
  metrics_ok engine_shotgun = true ->
  _halt_event (self_worker w) = false ->
  ordinary_host h ->
  halt_during_wait h = true ->
  exists w',
    run hook_name engine_shotgun (h :: rest) w = Some (Returned tt w') /\
    run_pass hook_name h w = Returned tt w' /\
    _halt_event (self_worker w') = true.
Proof.
  intros Hok Hrunning Hordinary Hhalt.
  destruct (run_pass_returns_ordinary h w Hordinary) as [w' Hpass].
  pose proof (run_pass_final_worker h w) as Hworker.
  rewrite Hpass, Hhalt in Hworker. simpl in Hworker.
  assert (_halt_event (self_worker w') = true) as Hset by by rewrite Hworker.
  exists w'. unfold run. rewrite Hok. simpl. rewrite Hrunning, Hpass.
  split; [|done]. destruct rest; simpl; by rewrite Hset.
Qed.

(** X17: when the loop ends, the queue has lost whole batches from its
    head and nothing else: after [k] passes, at most one per entry of the
    script, what is pending is what was pending without its first [10 * k]
    metrics.  Metrics beyond a batch wait for a later pass. *)
Theorem run_loop_takes_batches (script : list host) (w : world)
    (o : outcome world unit) :
  run_loop hook_name script w = Some o ->
  exists k : nat,
    (k <= length script)%nat /\
    _queue (metrics_queue (final_state o)) =
      drop (10 * k) (_queue (metrics_queue w)).
Proof.
  revert w. induction script as [|h script IH]; intros w; simpl.
  - destruct (_halt_event (self_worker w)); [|discriminate].
    intros [= <-]. exists 0%nat. by split.
  - destruct (_halt_event (self_worker w)).
    { intros [= <-]. exists 0%nat. split; [lia|done]. }
    pose proof (run_pass_final_queue h w) as [Hq _].
    destruct (run_pass hook_name h w) as [[] w'|e w']; simpl in Hq.
    + intros Hloop. destruct (IH w' Hloop) as (k & Hk & Hdrop).
      exists (S k). split; [lia|].
      rewrite Hdrop, Hq, drop_drop. f_equal. lia.
    + intros [= <-]. exists 1%nat. split; [lia|]. simpl. by rewrite Hq.
Qed.

End WorkerPass.

Lemma run_pass_nothing_pending_witness :
  _queue (metrics_queue Sample.idle_world) = [] /\
  exists w',
    run_pass Sample.hook_name Sample.refused Sample.idle_world = Returned tt w' /\
    trace w' =
      trace Sample.idle_world ++
      [GetMetrics DISPATCH_BATCH_SIZE []; Wait DISPATCH_INTERVAL] /\
    metrics_queue w' = metrics_queue Sample.idle_world.
Proof.
  split; [reflexivity|].
  apply (run_pass_nothing_pending Sample.hook_name Sample.refused
           Sample.idle_world). reflexivity.
Defined.

Lemma run_pass_swallows_faults_witness :
  ordinary_host Sample.refused /\
  exists w',
    run_pass Sample.hook_name Sample.refused Sample.worker_world = Returned tt w'.
Proof.
  split; [repeat split|].
  apply (run_pass_swallows_faults Sample.hook_name Sample.refused
           Sample.worker_world).
  repeat split.
Defined.

Lemma run_pass_sends_batch_witness :
  _queue (metrics_queue Sample.worker_world) <> [] /\
  exists w',
    run_pass Sample.hook_name Sample.accepted Sample.worker_world =
      Returned tt w' /\
    trace w' =
      [GetMetrics DISPATCH_BATCH_SIZE [Sample.first_use; Sample.launched];
       UrlOpen "https://studio.shotgunstudio.com/api3/track_metrics/" "{...}";
       CoreHook Sample.hook_name [data Sample.first_use; data Sample.launched];
       Wait DISPATCH_INTERVAL] /\
    (length (take 10 (_queue (metrics_queue Sample.worker_world))) <= 10)%nat.
Proof.
  split; [discriminate|].
  apply (run_pass_sends_batch Sample.hook_name Sample.accepted
           Sample.worker_world "token" "{...}").
  - discriminate.
  - reflexivity.
  - reflexivity.
  - left. reflexivity.
  - exact I.
Defined.

Lemma run_pass_fault_before_request_witness :
  _queue (metrics_queue Sample.worker_world) <> [] /\
  is_Exception (OtherException "AuthenticationFault") = true /\
  exists w',
    run_pass Sample.hook_name Sample.no_token Sample.worker_world =
      Returned tt w' /\
    trace w' =
      [GetMetrics DISPATCH_BATCH_SIZE [Sample.first_use; Sample.launched];
       InstallOpener; Wait DISPATCH_INTERVAL] /\
    _queue (metrics_queue w') = [].
Proof.
  split; [discriminate|]. split; [reflexivity|].
  apply (run_pass_fault_before_request Sample.hook_name Sample.no_token
           Sample.worker_world (OtherException "AuthenticationFault")).
  - discriminate.
  - reflexivity.
  - left. reflexivity.
Defined.

Lemma run_halts_after_wait_witness :
  metrics_ok Sample.site = true /\
  _halt_event (self_worker Sample.worker_world) = false /\
  ordinary_host Sample.accepted /\
  halt_during_wait Sample.accepted = true /\
  exists w',
    run Sample.hook_name Sample.site [Sample.accepted; Sample.refused]
        Sample.worker_world = Some (Returned tt w') /\
    run_pass Sample.hook_name Sample.accepted Sample.worker_world =
      Returned tt w' /\
    _halt_event (self_worker w') = true.
Proof.
  split; [reflexivity|]. split; [reflexivity|].
  split; [repeat split|]. split; [reflexivity|].
  apply (run_halts_after_wait Sample.hook_name Sample.site Sample.accepted
           [Sample.refused] Sample.worker_world).
  - reflexivity.
  - reflexivity.
  - repeat split.
  - reflexivity.
Defined.

Lemma run_loop_takes_batches_witness :
  run_loop Sample.hook_name [Sample.accepted] Sample.worker_world =
    Some (run_pass Sample.hook_name Sample.accepted Sample.worker_world) /\
  exists k : nat,
    (k <= length [Sample.accepted])%nat /\
    _queue (metrics_queue (final_state
      (run_pass Sample.hook_name Sample.accepted Sample.worker_world))) =
      drop (10 * k) (_queue (metrics_queue Sample.worker_world)).
Proof.
  assert (run_loop Sample.hook_name [Sample.accepted] Sample.worker_world =
            Some (run_pass Sample.hook_name Sample.accepted Sample.worker_world))
    as Hloop by (vm_compute; reflexivity).
  split; [exact Hloop|].
  exact (run_loop_takes_batches Sample.hook_name [Sample.accepted]
           Sample.worker_world _ Hloop).
Defined.

(** X18: a connection without [server_caps], with a [version] of [None] or
    with an empty version tuple does not support metrics: [run] returns at
    once, having called nothing and taken nothing from the queue. *)
Theorem run_without_version (hook_name : string) (engine_shotgun : Shotgun)
    (script : list host) (w : world) :
  server_caps engine_shotgun = None \/
  server_caps engine_shotgun = Some None \/
  server_caps engine_shotgun = Some (Some []) ->
  run hook_name engine_shotgun script w = Some (Returned tt w).
Proof.
  unfold run, metrics_ok. by intros [->|[->| ->]].
Qed.

Lemma run_without_version_witness :
  (server_caps Sample.bare_connection = None \/
   server_caps Sample.bare_connection = Some None \/
   server_caps Sample.bare_connection = Some (Some [])) /\
  run Sample.hook_name Sample.bare_connection [Sample.accepted]
      Sample.worker_world = Some (Returned tt Sample.worker_world).
Proof.
  assert (server_caps Sample.bare_connection = None \/
          server_caps Sample.bare_connection = Some None \/
          server_caps Sample.bare_connection = Some (Some [])) as Hcaps
    by (left; reflexivity).
  split; [exact Hcaps|].
  exact (run_without_version Sample.hook_name Sample.bare_connection
           [Sample.accepted] Sample.worker_world Hcaps).
Defined.

(** X19: for a version of three components the probe accepts exactly the
    versions from 7.4.0 on; for a version of two components it accepts
    those above 7.4 only, as the tuple (7, 4) is smaller than
    (7, 4, 0). *)
Theorem metrics_ok_threshold (sg : Shotgun) :
  (forall major minor patch,
     server_caps sg = Some (Some [major; minor; patch]) ->
     (metrics_ok sg = true <-> ~ below_minimum major minor patch)) /\
  (forall major minor,
     server_caps sg = Some (Some [major; minor]) ->
     (metrics_ok sg = true <-> 7 < major \/ (major = 7 /\ 4 < minor))).
Proof.
  split.
  - intros major minor patch Hcaps. unfold metrics_ok. rewrite Hcaps. split.
    + intros Hok Hlow. apply tuple_ge_below_minimum in Hlow. congruence.
    + apply tuple_ge_at_least_minimum.
  - intros major minor Hcaps. unfold metrics_ok, tuple_ge. rewrite Hcaps. simpl.
    destruct (Z.compare_spec major 7) as [Hmaj|Hmaj|Hmaj];
      [|split; [done|lia]|split; [lia|done]].
    destruct (Z.compare_spec minor 4) as [Hmin|Hmin|Hmin];
      [split; [done|lia]|split; [done|lia]|split; [lia|done]].
Qed.

(** ** The dispatcher *)

(** What [halt()] on each listed worker does to the threads: the listed
    ones get their halt event set, the others keep theirs; none is added or
    removed, and whether a thread was started does not change. *)
Lemma halt_all_threads (ws : list nat) (p : process) :
  exists ts,
    halt_all ws p = Returned tt {| threads := ts; dispatcher := dispatcher p |} /\
    length ts = length (threads p) /\
    forall r t, threads p !! r = Some t ->
      exists t', ts !! r = Some t' /\
                 started t' = started t /\
                 _halt_event t' = if decide (r ∈ ws) then true else _halt_event t.
Proof.
  revert p. induction ws as [|worker ws IH]; intros p; simpl.
  - exists (threads p). destruct p; simpl. split; [done|]. split; [done|].
    intros r t Ht. exists t. split; [done|]. split; [done|].
    destruct (decide (r ∈ [])) as [Hin|_]; [by apply elem_of_nil in Hin|done].
  - unfold bind, thread_halt, modify; simpl.
    destruct (IH {| threads := alter halt worker (threads p);
                    dispatcher := dispatcher p |}) as (ts & Hts & Hlen & Hlook).
    simpl in *. exists ts. split; [done|].
    split; [by rewrite Hlen, length_alter|].
    intros r t Ht. destruct (decide (r = worker)) as [->|Hne].
    + destruct (Hlook worker (halt t)) as (t' & Ht' & Hstarted & Hhalt).
      { by rewrite list_lookup_alter_eq, Ht. }
      exists t'. split; [done|]. split; [done|].
      rewrite decide_True by apply list_elem_of_here.
      rewrite Hhalt. simpl. by destruct (decide (worker ∈ ws)).
    + destruct (Hlook r t) as (t' & Ht' & Hstarted & Hhalt).
      { by rewrite list_lookup_alter_ne. }
      exists t'. split; [done|]. split; [done|]. rewrite Hhalt.
      destruct (decide (r ∈ ws)) as [Hin|Hout].
      * rewrite decide_True; [done|]. by apply list_elem_of_further.
      * rewrite decide_False; [done|].
        intros [?|?]%elem_of_cons; done.
Qed.

Lemma stop_effect (p : process) :
  exists p',
    stop p = Returned tt p' /\
    workers p' = [] /\
    dispatching p' = false /\
    _num_workers (dispatcher p') = _num_workers (dispatcher p) /\
    length (threads p') = length (threads p) /\
    forall r t, threads p !! r = Some t ->
      exists t', threads p' !! r = Some t' /\
                 started t' = started t /\
                 _halt_event t' =
                   if decide (r ∈ workers p) then true else _halt_event t.
Proof.
  destruct (halt_all_threads (_workers (dispatcher p)) p)
    as (ts & Hts & Hlen & Hlook).
  eexists. unfold stop, bind at 1, get. unfold bind, modify. rewrite Hts.
  split; [reflexivity|]. simpl. repeat split; try done.
Qed.

(** X20: [stop] never raises; afterwards the worker list is empty and the
    flag is down, every thread that was listed has its halt event set, and
    every other thread is as before.  No thread is created or lost. *)
Theorem stop_halts_listed_workers (p : process) :
  exists p',
    stop p = Returned tt p' /\
    workers p' = [] /\
    dispatching p' = false /\
    _num_workers (dispatcher p') = _num_workers (dispatcher p) /\
    length (threads p') = length (threads p) /\
    forall r t, threads p !! r = Some t ->
      exists t', threads p' !! r = Some t' /\
                 started t' = started t /\
                 _halt_event t' =
                   if decide (r ∈ workers p) then true else _halt_event t.
Proof. apply stop_effect. Qed.

(** What [start] does on a dispatcher that is not dispatching, for an
    authenticated user. *)
Lemma start_from_idle (user : string) (p : process) :
  _dispatching (dispatcher p) = false ->
  start (Some user) p =
    Returned tt
      {| threads :=
           threads p ++ replicate (Z.to_nat (_num_workers (dispatcher p))) live_worker;
         dispatcher :=
           {| _num_workers := _num_workers (dispatcher p);
              _workers :=
                _workers (dispatcher p) ++
                seq (length (threads p)) (Z.to_nat (_num_workers (dispatcher p)));
              _dispatching := true |} |}.
Proof.
  intros Hflag. unfold start, bind at 1, get. rewrite Hflag.
  unfold bind. rewrite start_workers_returns. reflexivity.
Qed.

(** X21: a second [start] in a row changes nothing: after a [start] by an
    authenticated user, a further [start], with or without a user, returns
    with the same threads and the same worker list. *)
Theorem start_twice_is_start_once (user : string) (user' : option string)
    (p : process) :
  exists p1,
    start (Some user) p = Returned tt p1 /\
    dispatching p1 = true /\
    start user' p1 = Returned tt p1.
Proof.
  destruct (_dispatching (dispatcher p)) eqn:Hflag.
  - exists p. unfold start, bind, get, ret, dispatching. rewrite Hflag. done.
  - eexists. rewrite (start_from_idle user p Hflag).
    split; [reflexivity|]. split; [reflexivity|].
    unfold start, bind, get, ret. reflexivity.
Qed.

(** X22: on a dispatcher that is not dispatching, [start] by an
    authenticated user creates as many threads as configured, none when
    the count is zero or negative; these are started, not halted, listed in
    creation order, and the threads that existed are left as they were. *)
Theorem start_creates_configured_workers (num_workers : Z) (user : string)
    (p : process) :
  reachable num_workers p ->
  dispatching p = false ->
  exists p',
    start (Some user) p = Returned tt p' /\
    dispatching p' = true /\
    threads p' = threads p ++ replicate (Z.to_nat num_workers) live_worker /\
    workers p' = seq (length (threads p)) (Z.to_nat num_workers) /\
    Forall (running p') (workers p').
Proof.
  intros Hreach Hflag.
  destruct (reachable_inv _ _ Hreach) as (Hnum & Hdown & _).
  unfold dispatching, workers in *.
  eexists. rewrite (start_from_idle user p Hflag).
  split; [reflexivity|]. simpl. rewrite (Hdown Hflag), Hnum. simpl.
  split; [done|]. split; [done|]. split; [done|].
  apply Forall_seq. intros j Hj. exists live_worker. simpl.
  split; [|done].
  rewrite lookup_app_r by lia.
  apply lookup_replicate_2. lia.
Qed.

Lemma start_creates_configured_workers_witness :
  reachable 2 (new_process 2) /\
  dispatching (new_process 2) = false /\
  exists p',
    start (Some "user") (new_process 2) = Returned tt p' /\
    dispatching p' = true /\
    threads p' = [live_worker; live_worker] /\
    workers p' = [0; 1]%nat /\
    Forall (running p') (workers p').
Proof.
  split; [apply reachable_new|]. split; [reflexivity|].
  apply (start_creates_configured_workers 2 "user" (new_process 2));
    [apply reachable_new | reflexivity].
Defined.

(** A call on the dispatcher keeps every thread, and keeps a set halt
    event set. *)
Lemma do_call_keeps_halted (c : dispatcher_call) (p : process) (r : nat)
    (t : MetricsDispatchWorkerThread) :
  threads p !! r = Some t -> _halt_event t = true ->
  exists t', threads (do_call c p) !! r = Some t' /\ _halt_event t' = true.
Proof.
  intros Ht Hhalt. destruct c as [[user|]|]; simpl.
  - destruct (_dispatching (dispatcher p)) eqn:Hflag.
    + unfold start, bind, get, ret. rewrite Hflag. simpl. by exists t.
    + rewrite (start_from_idle user p Hflag). simpl. exists t.
      split; [|done]. by apply lookup_app_l_Some.
  - unfold start, bind, get, ret.
    destruct (_dispatching (dispatcher p)); simpl; by exists t.
  - destruct (halt_all_threads (_workers (dispatcher p)) p)
      as (ts' & Hts & _ & Hlook).
    unfold stop, bind at 1, get. unfold bind, modify. rewrite Hts. simpl.
    destruct (Hlook r t Ht) as (t' & Ht' & _ & Hhalt').
    exists t'. split; [done|]. rewrite Hhalt', Hhalt.
    by destruct (decide (r ∈ _workers (dispatcher p))).
Qed.

(** X23: a worker that was halted stays halted: no sequence of [start] and
    [stop] calls clears the halt event of a thread or drops the thread. *)
Theorem halted_worker_stays_halted (cs : list dispatcher_call) (p : process)
    (r : nat) (t : MetricsDispatchWorkerThread) :
  threads p !! r = Some t ->
  _halt_event t = true ->
  exists t', threads (do_calls cs p) !! r = Some t' /\ _halt_event t' = true.
Proof.
  unfold do_calls. revert p t. induction cs as [|c cs IH]; intros p t Ht Hhalt.
  - by exists t.
  - simpl. destruct (do_call_keeps_halted c p r t Ht Hhalt) as (t1 & Ht1 & Hhalt1).
    by apply (IH _ t1).
Qed.

Lemma halted_worker_stays_halted_witness :
  threads (do_call CallStop (do_call (CallStart (Some "user")) (new_process 1)))
    !! 0%nat = Some {| started := true; _halt_event := true |} /\
  _halt_event {| started := true; _halt_event := true |} = true /\
  exists t',
    threads (do_calls [CallStart (Some "user"); CallStop; CallStart (Some "user")]
               (do_call CallStop (do_call (CallStart (Some "user")) (new_process 1))))
      !! 0%nat = Some t' /\
    _halt_event t' = true.
Proof.
  split; [reflexivity|]. split; [reflexivity|].
  apply (halted_worker_stays_halted
           [CallStart (Some "user"); CallStop; CallStart (Some "user")]
           (do_call CallStop (do_call (CallStart (Some "user")) (new_process 1)))
           0%nat {| started := true; _halt_event := true |});
    reflexivity.
Defined.

(** X24: [stop] followed by [start] gives a new set of workers: as many as
    configured, all running, none of them among the workers listed before,
    which are all halted. *)
Theorem restart_gives_new_workers (num_workers : Z) (user : string) (p : process) :
  reachable num_workers p ->
  Forall (running (do_call (CallStart (Some user)) (do_call CallStop p)))
    (workers (do_call (CallStart (Some user)) (do_call CallStop p))) /\
  length (workers (do_call (CallStart (Some user)) (do_call CallStop p))) =
    Z.to_nat num_workers /\
  forall r, r ∈ workers p ->
    (r ∉ workers (do_call (CallStart (Some user)) (do_call CallStop p))) /\
    exists t,
      threads (do_call (CallStart (Some user)) (do_call CallStop p)) !! r = Some t /\
      _halt_event t = true.
Proof.
  intros Hreach.
  pose proof (reachable_call _ CallStop p Hreach) as Hreach1.
  pose proof (reachable_call _ (CallStart (Some user)) _ Hreach1) as Hreach2.
  destruct (reachable_inv _ _ Hreach) as (_ & Hdown & Hup).
  destruct (reachable_inv _ _ Hreach1) as (Hnum1 & Hdown1 & _).
  destruct (reachable_inv _ _ Hreach2) as (_ & _ & Hup2).
  destruct (stop_effect p) as (p1 & Hstop & Hws1 & Hflag1 & _ & Hlen1 & Hlook1).
  revert Hreach1 Hreach2 Hnum1 Hdown1 Hup2. simpl. rewrite Hstop. simpl.
  intros Hreach1 Hreach2 Hnum1 Hdown1 Hup2.
  unfold dispatching, workers in *.
  rewrite (start_from_idle user p1 Hflag1) in *. simpl in *.
  destruct (Hup2 eq_refl) as [Hlen2 Hrun2].
  split; [done|]. split; [done|].
  intros r Hr.
  destruct (_dispatching (dispatcher p)) eqn:Hflag;
    [|rewrite (Hdown eq_refl) in Hr; by apply elem_of_nil in Hr].
  destruct (Hup eq_refl) as [_ Hrun].
  rewrite Forall_forall in Hrun. destruct (Hrun r Hr) as (t & Ht & _ & _).
  destruct (Hlook1 r t Ht) as (t1 & Ht1 & _ & Hhalt1).
  rewrite decide_True in Hhalt1 by done.
  split.
  - rewrite Hws1. simpl. intros [Hge _]%elem_of_seq.
    apply lookup_lt_Some in Ht1. lia.
  - exists t1. split; [|done]. by apply lookup_app_l_Some.
Qed.

Lemma restart_gives_new_workers_witness :
  reachable 1 (do_call (CallStart (Some "user")) (new_process 1)) /\
  0%nat ∉ workers (do_call (CallStart (Some "user"))
                    (do_call CallStop
                       (do_call (CallStart (Some "user")) (new_process 1)))).
Proof.
  assert (reachable 1 (do_call (CallStart (Some "user")) (new_process 1)))
    as Hreach by apply reachable_call, reachable_new.
  split; [exact Hreach|].
  apply (restart_gives_new_workers 1 "user" _ Hreach). simpl. left.
Defined.

(** X25: [stop] on a dispatcher that is not dispatching changes nothing. *)
Theorem stop_when_idle (num_workers : Z) (p : process) :
  reachable num_workers p ->
  dispatching p = false ->
  stop p = Returned tt p.
Proof.
  intros Hreach Hflag.
  destruct (reachable_inv _ _ Hreach) as (_ & Hdown & _).
  specialize (Hdown Hflag). unfold dispatching, workers in *.
  destruct p as [ts [num ws flag]]. simpl in *. subst ws flag.
  reflexivity.
Qed.

Lemma stop_when_idle_witness :
  reachable 3 (new_process 3) /\
  dispatching (new_process 3) = false /\
  stop (new_process 3) = Returned tt (new_process 3).
Proof.
  split; [apply reachable_new|]. split; [reflexivity|].
  apply (stop_when_idle 3 (new_process 3)); [apply reachable_new|reflexivity].
Defined.

(** The worker list is a run of consecutive references. *)
Lemma reachable_workers_seq (num_workers : Z) (p : process) :
  reachable num_workers p ->
  exists k, workers p = seq k (length (workers p)).
Proof.
  induction 1 as [|c p Hreach IH].
  - by exists 0%nat.
  - destruct (reachable_inv _ _ Hreach) as (_ & Hdown & _).
    unfold dispatching, workers in *.
    destruct c as [[user|]|]; simpl.
    + destruct (_dispatching (dispatcher p)) eqn:Hflag.
      * unfold start, bind, get, ret. by rewrite Hflag.
      * rewrite (start_from_idle user p Hflag). simpl.
        rewrite (Hdown eq_refl). simpl.
        exists (length (threads p)). by rewrite length_seq.
    + unfold start, bind, get, ret.
      by destruct (_dispatching (dispatcher p)).
    + destruct (stop_returns p) as [ts ->]. by exists 0%nat.
Qed.

(** X26: while dispatching, the dispatcher lists exactly the configured
    number of workers, each once and each an existing thread; repeated
    calls of [start] never add to them. *)
Theorem dispatching_worker_count (num_workers : Z) (p : process) :
  reachable num_workers p ->
  dispatching p = true ->
  length (workers p) = Z.to_nat num_workers /\
  NoDup (workers p) /\
  Forall (fun r => (r < length (threads p))%nat) (workers p).
Proof.
  intros Hreach Hflag.
  destruct (reachable_inv _ _ Hreach) as (_ & _ & Hup).
  destruct (Hup Hflag) as [Hlen Hrun].
  destruct (reachable_workers_seq _ _ Hreach) as [k Hseq].
  split; [done|]. split.
  - rewrite Hseq. apply NoDup_seq.
  - eapply Forall_impl; [exact Hrun|].
    intros r (t & Ht & _). by apply lookup_lt_Some in Ht.
Qed.

Lemma dispatching_worker_count_witness :
  reachable 2 (do_calls [CallStart (Some "user"); CallStart (Some "user")]
                 (new_process 2)) /\
  dispatching (do_calls [CallStart (Some "user"); CallStart (Some "user")]
                 (new_process 2)) = true /\
  length (workers (do_calls [CallStart (Some "user"); CallStart (Some "user")]
                     (new_process 2))) = Z.to_nat 2.
Proof.
  assert (reachable 2 (do_calls [CallStart (Some "user"); CallStart (Some "user")]
                         (new_process 2))) as Hreach
    by (apply (reachable_call 2 (CallStart (Some "user"))
                 (do_call (CallStart (Some "user")) (new_process 2)));
        apply reachable_call, reachable_new).
  split; [exact Hreach|]. split; [reflexivity|].
  apply (dispatching_worker_count 2 _ Hreach). reflexivity.
Defined.
